(** * Archestra proxy: quota limits, prompt versions, trusted data, Anthropic streaming

    A shallow embedding of the parts of the Archestra backend that its
    specification makes claims about:

    - [models/limit.ts]: [LimitModel] and [LimitValidationService]
      (quota pre-check, cleanup sweep, usage reset);
    - [models/prompt.ts]: [PromptModel] (versioned prompts);
    - the Anthropic messages handler [handleMessages] (streaming and unary);
    - the trusted-data utilities [evaluatePolicies] and
      [filterOutBlockedData], whose implementation is not among the sources
      and is modelled from the specification and from their test-suite.

    Asynchronous code runs to completion between awaits and touches one
    database, so it is embedded as state passing over a [World] with
    exceptions that keep the state (a JavaScript [catch] does not roll the
    database back). *)

From Stdlib Require Import ZArith List String Bool Lia DecimalString.
From Stdlib Require Import Floats.PrimFloat Numbers.Cyclic.Int63.Uint63.
Import ListNotations.

(* ------------------------------------------------------------------ *)
(** ** JavaScript values *)

Module Js.

(** A JavaScript [number] is a binary64 float.  Integer columns of the
    database are kept as [Z] and enter float arithmetic through [num]. *)
Definition number := float.

Definition num (z : Z) : number :=
  match z with
  | Z0 => 0%float
  | Zpos _ => of_uint63 (Uint63.of_Z z)
  | Zneg p => (- of_uint63 (Uint63.of_Z (Zpos p)))%float
  end.

(** [a >= b] on numbers: false as soon as one side is NaN. *)
Definition geq (a b : number) : bool := PrimFloat.leb b a.

(** [x || 0] on an integer: zero is the only falsy integer. *)
Definition orZero (x : Z) : Z := if Z.eqb x 0 then 0%Z else x.

(** Truthiness of a nullable string: [null] and [""] are falsy. *)
Definition truthy (s : option string) : bool :=
  match s with
  | Some s => negb (String.eqb s "")
  | None => false
  end.

(** [a || b] on strings. *)
Definition orElse (a : option string) (b : string) : string :=
  match a with
  | Some s => if String.eqb s "" then b else s
  | None => b
  end.

End Js.

(* ------------------------------------------------------------------ *)
(** ** Rows of the relational store *)

Definition Id := string.

(** Instants are milliseconds since the epoch, as [Date.getTime] gives. *)
Definition Instant := Z.

Inductive LimitEntityType := organization | team | agent.

Definition LimitEntityType_eqb (a b : LimitEntityType) : bool :=
  match a, b with
  | organization, organization | team, team | agent, agent => true
  | _, _ => false
  end.

(** A row of [limitsTable].  The counters and the limit are integer
    columns; [model] and [lastCleanup] are nullable. *)
Record Limit := mkLimit {
  id : Id;
  entityType : LimitEntityType;
  entityId : Id;
  limitType : string;
  model : option string;
  limitValue : Z;
  currentUsageTokensIn : Z;
  currentUsageTokensOut : Z;
  lastCleanup : option Instant;
  updatedAt : Instant
}.

(** A row of [teamsTable], as far as the quota code reads it. *)
Record Team := mkTeam {
  teamId : Id;
  organizationId : option Id
}.

(** Modelled from the spec: the organizations schema is not among the
    sources.  The specification gives [limitCleanupInterval] the five
    values below, which are also the five cases of the [switch] in
    [cleanupLimitsIfNeeded]; the column is nullable there
    ([organization.limitCleanupInterval || "1h"]). *)
Inductive CleanupInterval := I1h | I12h | I24h | I1w | I1m.

Record Organization := mkOrganization {
  orgId : Id;
  limitCleanupInterval : option CleanupInterval
}.

(** Modelled from the spec: the token-price schema is not among the
    sources.  Each price is held as the number [parseFloat] yields for the
    stored decimal string. *)
Record TokenPrice := mkTokenPrice {
  priceModel : string;
  pricePerMillionInput : Js.number;
  pricePerMillionOutput : Js.number
}.

Record Tables := mkTables {
  limitsTable : list Limit;
  teamsTable : list Team;
  agentTeamTable : list (Id * Id);        (* (agentId, teamId) *)
  organizationsTable : list Organization;
  tokenPricesTable : list TokenPrice
}.

Definition setLimits (t : Tables) (ls : list Limit) : Tables :=
  mkTables ls (teamsTable t) (agentTeamTable t) (organizationsTable t)
           (tokenPricesTable t).

(* ------------------------------------------------------------------ *)
(** ** The effect monad: state, thrown errors, clock, log *)

Inductive Level := Warn | Error.

(** What [logger.warn] and [logger.error] are called with, one constructor
    per call site, carrying the interpolated values.  [logger.info] lines
    decide nothing and are not recorded. *)
Inductive LogMessage :=
| OrganizationNotFound (organizationId : Id)
| ErrorCleaningUpLimits (organizationId : Id)
| ErrorCheckingLimitsBeforeRequest
| NoModelSpecified (limitId : Id)
| NoPricingFound (model : string)
| ErrorConvertingTokensToCost (model : string)
| ErrorCheckingEntityLimits (entityType : LimitEntityType) (entityId : Id).

Record World := mkWorld {
  db : Tables;
  (** One flag per database statement still to come: [true] makes that
      statement throw.  No flag left means no failure. *)
  faults : list bool;
  (** What [new Date()] returns next, and how much time passes after each
      reading. *)
  clock : Instant;
  elapsed : list nat;
  log : list (Level * LogMessage)
}.

Inductive Outcome (A : Type) :=
| Ok (a : A)
| Thrown.
Arguments Ok {A} a.
Arguments Thrown {A}.

Definition M (A : Type) := World -> Outcome A * World.

Definition ret {A} (a : A) : M A := fun w => (Ok a, w).

Definition bind {A B} (m : M A) (k : A -> M B) : M B :=
  fun w =>
    match m w with
    | (Ok a, w') => k a w'
    | (Thrown, w') => (Thrown, w')
    end.

(** [try { m } catch { h }]: the handler runs in the state the failure
    left behind. *)
Definition tryCatch {A} (m : M A) (h : M A) : M A :=
  fun w =>
    match m w with
    | (Ok a, w') => (Ok a, w')
    | (Thrown, w') => h w'
    end.

Declare Scope m_scope.
Delimit Scope m_scope with M.
Notation "x <- m ;; k" := (bind m (fun x => k))
  (at level 61, m at next level, right associativity) : m_scope.
Notation "m ;;; k" := (bind m (fun _ => k))
  (at level 61, right associativity) : m_scope.
Open Scope m_scope.

Definition logAt (lv : Level) (msg : LogMessage) : M unit :=
  fun w => (Ok tt, mkWorld (db w) (faults w) (clock w) (elapsed w)
                           (log w ++ [(lv, msg)])).

(** [new Date()]. *)
Definition newDate : M Instant :=
  fun w =>
    (Ok (clock w),
     mkWorld (db w) (faults w)
             (clock w + Z.of_nat (hd 0%nat (elapsed w)))%Z
             (tl (elapsed w)) (log w)).

(** One database statement: it throws when its fault flag says so, and
    otherwise runs [f] on the tables. *)
Definition statement {A} (f : Tables -> A * Tables) : M A :=
  fun w =>
    match faults w with
    | true :: fs => (Thrown, mkWorld (db w) fs (clock w) (elapsed w) (log w))
    | false :: fs =>
        let (a, t) := f (db w) in
        (Ok a, mkWorld t fs (clock w) (elapsed w) (log w))
    | [] =>
        let (a, t) := f (db w) in
        (Ok a, mkWorld t [] (clock w) (elapsed w) (log w))
    end.

Definition query {A} (f : Tables -> A) : M A :=
  statement (fun t => (f t, t)).

Definition result {A} (r : Outcome A * World) : Outcome A := fst r.
Definition after {A} (r : Outcome A * World) : World := snd r.

(* ------------------------------------------------------------------ *)
(** ** [models/limit.ts]: [LimitModel] *)

Module AgentTeamModel.

(** Modelled from the spec: [AgentTeamModel.getTeamsForAgent] is imported
    from a file that is not among the sources; it is the team ids the
    agent-team table holds for the agent ([Agent] carries [teamIds]). *)
Definition getTeamsForAgent (agentId : Id) : M (list Id) :=
  query (fun t =>
    map snd (filter (fun r => String.eqb (fst r) agentId) (agentTeamTable t))).

End AgentTeamModel.

Module TokenPriceModel.

(** Modelled from the spec: [TokenPriceModel.findByModel] is imported from
    a file that is not among the sources; it is the price row of the
    model ("look up [TokenPrice(model)]"), or [null]. *)
Definition findByModel (model : string) : M (option TokenPrice) :=
  query (fun t =>
    find (fun p => String.eqb (priceModel p) model) (tokenPricesTable t)).

End TokenPriceModel.

Module LimitModel.

(** The [where] clause of [findLimitsNeedingCleanup]. *)
Definition needsCleanup (organizationId : Id) (cutoffTime : Instant)
           (l : Limit) : bool :=
  LimitEntityType_eqb (entityType l) organization
  && String.eqb (entityId l) organizationId
  && match lastCleanup l with
     | None => true
     | Some t => (t <? cutoffTime)%Z
     end.

Definition findLimitsNeedingCleanup (organizationId : Id)
           (cutoffTime : Instant) : M (list Limit) :=
  query (fun t => filter (needsCleanup organizationId cutoffTime)
                         (limitsTable t)).

(** The [set] clause of [resetLimitUsage]. *)
Definition resetRow (now : Instant) (l : Limit) : Limit :=
  mkLimit (id l) (entityType l) (entityId l) (limitType l) (model l)
          (limitValue l) 0 0 (Some now) now.

Definition resetWhere (limitId : Id) (now : Instant) (l : Limit) : Limit :=
  if String.eqb (id l) limitId then resetRow now l else l.

Definition resetLimitUsage (limitId : Id) : M (option Limit) :=
  now <- newDate ;;
  statement (fun t =>
    let rows := map (resetWhere limitId now) (limitsTable t) in
    (find (fun l => String.eqb (id l) limitId) rows, setLimits t rows)).

Definition findLimitsForValidation (entityType0 : LimitEntityType)
           (entityId0 : Id) (limitType0 : string) : M (list Limit) :=
  query (fun t =>
    filter (fun l => LimitEntityType_eqb (entityType l) entityType0
                     && String.eqb (entityId l) entityId0
                     && String.eqb (limitType l) limitType0)
           (limitsTable t)).

(** The five cases of the [switch] on the interval, in milliseconds. *)
Definition intervalMillis (i : CleanupInterval) : Z :=
  match i with
  | I1h => 60 * 60 * 1000
  | I12h => 12 * 60 * 60 * 1000
  | I24h => 24 * 60 * 60 * 1000
  | I1w => 7 * 24 * 60 * 60 * 1000
  | I1m => 30 * 24 * 60 * 60 * 1000
  end%Z.

(** [organization?.limitCleanupInterval || "1h"]. *)
Definition intervalOf (organization0 : option Organization)
  : CleanupInterval :=
  match organization0 with
  | Some o => match limitCleanupInterval o with
              | Some i => i
              | None => I1h
              end
  | None => I1h
  end.

(** [for (const limit of limitsToCleanup) await resetLimitUsage(limit.id)]. *)
Fixpoint resetAll (limitsToCleanup : list Limit) : M unit :=
  match limitsToCleanup with
  | [] => ret tt
  | l :: rest => resetLimitUsage (id l) ;;; resetAll rest
  end.

Definition cleanupLimitsIfNeeded (organizationId : Id) : M unit :=
  tryCatch
    (orgs <- query (fun t =>
               filter (fun o => String.eqb (orgId o) organizationId)
                      (organizationsTable t)) ;;
     let organization0 := hd_error orgs in
     let cleanupInterval := intervalOf organization0 in
     match organization0 with
     | None => logAt Warn (OrganizationNotFound organizationId)
     | Some _ => ret tt
     end ;;;
     now <- newDate ;;
     let cutoffTime := (now - intervalMillis cleanupInterval)%Z in
     limitsToCleanup <- findLimitsNeedingCleanup organizationId cutoffTime ;;
     resetAll limitsToCleanup)
    (logAt Error (ErrorCleaningUpLimits organizationId)).

End LimitModel.

(* ------------------------------------------------------------------ *)
(** ** [models/limit.ts]: [LimitValidationService] *)

Module LimitValidationService.

(** The pair of locals [comparisonValue] and [limitDescription], which
    the code always assigns together: a token count (["tokens"]) or a
    cost (["cost_dollars"]).  The token count is a sum of two integer
    columns; the cost is float arithmetic. *)
Inductive Compared :=
| Tokens (usage : Z)
| CostDollars (cost : Js.number).

(** [comparisonValue >= limit.limitValue]. *)
Definition reaches (c : Compared) (limitValue0 : Z) : bool :=
  match c with
  | Tokens usage => (limitValue0 <=? usage)%Z
  | CostDollars cost => Js.geq cost (Js.num limitValue0)
  end.

(** The values the two template strings [refusalMessage] and
    [contentMessage] of the refusal pair are built from. *)
Record Refusal := mkRefusal {
  refusedEntityType : LimitEntityType;
  refusedEntityId : Id;
  refusedLimitId : Id;
  currentUsage : Z;
  refusedLimitValue : Z;
  comparison : Compared
}.

(** [(limit.currentUsageTokensIn || 0) + (limit.currentUsageTokensOut || 0)]. *)
Definition usageOf (l : Limit) : Z :=
  (Js.orZero (currentUsageTokensIn l) + Js.orZero (currentUsageTokensOut l))%Z.

(** [inputCost + outputCost] for the price row [p]. *)
Definition costOf (l : Limit) (p : TokenPrice) : Js.number :=
  let inputTokens := Js.num (Js.orZero (currentUsageTokensIn l)) in
  let outputTokens := Js.num (Js.orZero (currentUsageTokensOut l)) in
  let inputCost := (inputTokens * pricePerMillionInput p / 1000000)%float in
  let outputCost := (outputTokens * pricePerMillionOutput p / 1000000)%float in
  (inputCost + outputCost)%float.

(** What the loop body computes into [comparisonValue] and
    [limitDescription] for one limit. *)
Definition comparisonFor (l : Limit) : M Compared :=
  let currentUsage0 := usageOf l in
  if String.eqb (limitType l) "token_cost" then
    match model l with
    | None =>
        logAt Warn (NoModelSpecified (id l)) ;;; ret (Tokens currentUsage0)
    | Some m =>
        if String.eqb m "" then
          logAt Warn (NoModelSpecified (id l)) ;;; ret (Tokens currentUsage0)
        else
          tryCatch
            (tokenPrice <- TokenPriceModel.findByModel m ;;
             match tokenPrice with
             | None =>
                 logAt Warn (NoPricingFound m) ;;; ret (Tokens currentUsage0)
             | Some p => ret (CostDollars (costOf l p))
             end)
            (logAt Error (ErrorConvertingTokensToCost m) ;;;
             ret (Tokens currentUsage0))
    end
  else ret (Tokens currentUsage0).

(** One turn of [for (const limit of limits)]: [Some] is the early
    [return [refusalMessage, contentMessage]]. *)
Definition checkLimit (entityType0 : LimitEntityType) (entityId0 : Id)
           (l : Limit) : M (option Refusal) :=
  c <- comparisonFor l ;;
  if reaches c (limitValue l)
  then ret (Some (mkRefusal entityType0 entityId0 (id l) (usageOf l)
                            (limitValue l) c))
  else ret None.

Fixpoint checkEach (entityType0 : LimitEntityType) (entityId0 : Id)
         (limits : list Limit) : M (option Refusal) :=
  match limits with
  | [] => ret None
  | l :: rest =>
      r <- checkLimit entityType0 entityId0 l ;;
      match r with
      | Some refusal => ret (Some refusal)
      | None => checkEach entityType0 entityId0 rest
      end
  end.

Definition checkEntityLimits (entityType0 : LimitEntityType)
           (entityId0 : Id) : M (option Refusal) :=
  tryCatch
    (limits <- LimitModel.findLimitsForValidation entityType0 entityId0
                 "token_cost" ;;
     match limits with
     | [] => ret None
     | _ :: _ => checkEach entityType0 entityId0 limits
     end)
    (logAt Error (ErrorCheckingEntityLimits entityType0 entityId0) ;;;
     ret None).

(** [db.select().from(teamsTable).where(inArray(teamsTable.id, ids))]. *)
Definition teamsIn (ids : list Id) : M (list Team) :=
  query (fun t =>
    filter (fun tm => existsb (String.eqb (teamId tm)) ids) (teamsTable t)).

(** [select entityId from limits where entityType = 'organization' limit 1]. *)
Definition existingOrgLimits : M (list Id) :=
  query (fun t =>
    firstn 1 (map entityId
                  (filter (fun l => LimitEntityType_eqb (entityType l)
                                                        organization)
                          (limitsTable t)))).

(** [teams.length > 0 && teams[0].organizationId], and the id it yields. *)
Definition firstTeamOrganization (teams : list Team) : option Id :=
  match teams with
  | tm :: _ => if Js.truthy (organizationId tm) then organizationId tm
               else None
  | [] => None
  end.

(** [for (const team of teams)] with its early return. *)
Fixpoint checkTeams (teams : list Team) : M (option Refusal) :=
  match teams with
  | [] => ret None
  | tm :: rest =>
      teamLimitViolation <- checkEntityLimits team (teamId tm) ;;
      match teamLimitViolation with
      | Some refusal => ret (Some refusal)
      | None => checkTeams rest
      end
  end.

Definition checkLimitsBeforeRequest (agentId : Id) : M (option Refusal) :=
  tryCatch
    (agentTeamIds <- AgentTeamModel.getTeamsForAgent agentId ;;
     organizationId0 <-
       match agentTeamIds with
       | _ :: _ =>
           teams <- teamsIn agentTeamIds ;;
           ret (firstTeamOrganization teams)
       | [] =>
           existing <- existingOrgLimits ;;
           ret (hd_error existing)
       end ;;
     match organizationId0 with
     | Some org => if Js.truthy organizationId0
                   then LimitModel.cleanupLimitsIfNeeded org
                   else ret tt
     | None => ret tt
     end ;;;
     agentLimitViolation <- checkEntityLimits agent agentId ;;
     match agentLimitViolation with
     | Some refusal => ret (Some refusal)
     | None =>
         match agentTeamIds with
         | _ :: _ =>
             teams <- teamsIn agentTeamIds ;;
             teamLimitViolation <- checkTeams teams ;;
             match teamLimitViolation with
             | Some refusal => ret (Some refusal)
             | None =>
                 match firstTeamOrganization teams with
                 | Some org => checkEntityLimits organization org
                 | None => ret None
                 end
             end
         | [] =>
             existing <- existingOrgLimits ;;
             match existing with
             | org :: _ => checkEntityLimits organization org
             | [] => ret None
             end
         end
     end)
    (logAt Error ErrorCheckingLimitsBeforeRequest ;;; ret None).

End LimitValidationService.

(* ------------------------------------------------------------------ *)
(** ** The pre-check as the specification words it

    Section 4.5 of the specification describes the pre-check as a walk
    over the governing entities in priority order.  The definitions below
    follow those words, as pure functions of the tables; the theorems
    compare them with [LimitValidationService]. *)

Module QuotaSpec.

Import LimitValidationService.

(** "If [limit.model] is unset: compare [currentUsageTokensIn +
    currentUsageTokensOut] ... If [limit.model] is set: look up
    [TokenPrice(model)]; compute [inputCost] and [outputCost]; compare
    the sum."  Without a price row the token sum stays. *)
Definition comparedValue (prices : list TokenPrice) (l : Limit) : Compared :=
  match model l with
  | None => Tokens (currentUsageTokensIn l + currentUsageTokensOut l)
  | Some m =>
      if String.eqb m "" then
        Tokens (currentUsageTokensIn l + currentUsageTokensOut l)
      else
        match find (fun p => String.eqb (priceModel p) m) prices with
        | Some p =>
            CostDollars
              (Js.num (currentUsageTokensIn l) * pricePerMillionInput p
                 / 1000000
               + Js.num (currentUsageTokensOut l) * pricePerMillionOutput p
                 / 1000000)%float
        | None => Tokens (currentUsageTokensIn l + currentUsageTokensOut l)
        end
  end.


Definition refusalFor (t : Tables) (e : LimitEntityType * Id) (l : Limit)
  : Refusal :=
  mkRefusal (fst e) (snd e) (id l)
            (currentUsageTokensIn l + currentUsageTokensOut l)
            (limitValue l) (comparedValue (tokenPricesTable t) l).




End QuotaSpec.

(* ------------------------------------------------------------------ *)
(** ** Vocabulary of the quota theorems *)

(** A world in which no statement is going to fail. *)
Definition quiet (w : World) : Prop := faults w = [].

(** [w'] differs from [w] by log lines only. *)
Definition onlyLogs (w w' : World) : Prop :=
  db w' = db w /\ faults w' = faults w /\ clock w' = clock w
  /\ elapsed w' = elapsed w.





(* ------------------------------------------------------------------ *)
(** ** Sample data for the quota theorems *)

Module QuotaSamples.

Open Scope string_scope.
Open Scope Z_scope.

(** An agent-level limit of 1000 tokens with usage (600, 500): scenario
    S5 of the specification. *)
Definition agentLimit : Limit :=
  mkLimit "limit-agent" agent "agent-1" "token_cost" None
          1000 600 500 None 0.

(** The same limit with usage (600, 400): usage equal to the limit. *)
Definition agentLimitAtValue : Limit :=
  mkLimit "limit-agent" agent "agent-1" "token_cost" None
          1000 600 400 None 0.

Definition teamLimit : Limit :=
  mkLimit "limit-team" team "team-1" "token_cost" None
          10 20 30 None 0.

(** A dollar limit on a priced model: 2M input tokens at $3 and 1M
    output tokens at $15 per million cost $21. *)
Definition orgLimit : Limit :=
  mkLimit "limit-org" organization "org-1" "token_cost" (Some "gpt-4")
          20 2000000 1000000 (Some 4000000) 0.

(** A dollar limit on a model without a price row. *)
Definition unpricedLimit : Limit :=
  mkLimit "limit-unpriced" agent "agent-2" "token_cost" (Some "mystery")
          50 30 40 None 0.

Definition tables : Tables :=
  mkTables [agentLimit; teamLimit; orgLimit; unpricedLimit]
           [mkTeam "team-1" (Some "org-1")]
           [("agent-1", "team-1")]
           [mkOrganization "org-1" (Some I1h)]
           [mkTokenPrice "gpt-4" 3%float 15%float].

(** A world without failures, twenty minutes after the last sweep. *)
Definition calm : World := mkWorld tables [] 5200000 [] [].

(** The same world, whose next database statement throws. *)
Definition failing : World := mkWorld tables [true] 5200000 [] [].

(** Three hours later, with time passing between clock readings. *)
Definition later : World := mkWorld tables [] 16000000 [5; 7]%nat [].

End QuotaSamples.

(* ------------------------------------------------------------------ *)
(** ** [models/prompt.ts]: [PromptModel]

    The prompts table is a list of rows in insertion order.  The schema
    declares a primary key on [id] and no other uniqueness constraint.  The
    id of an inserted row is the UUID the database draws
    ([defaultRandom]); it is an argument of the operations here.  The two
    timestamps play no part in versioning and are left out. *)

Module PromptModel.

Inductive PromptType := system | regular.


Record Prompt := mkPrompt {
  id : Id;
  organizationId : Id;
  name : string;
  type : PromptType;
  content : string;
  version : Z;
  parentPromptId : option Id;
  isActive : bool;
  createdBy : Id
}.


(** [name?] and [content?] are optional. *)
Record UpdatePromptInput := mkUpdatePromptInput {
  updatedName : option string;
  updatedContent : option string;
  updatedBy : Id
}.


Definition findById (id0 : Id) (table : list Prompt) : option Prompt :=
  find (fun p => String.eqb (id p) id0) table.

(** [set({ isActive: false }).where(eq(promptsTable.id, id))]. *)
Definition deactivate (id0 : Id) (p : Prompt) : Prompt :=
  if String.eqb (id p) id0
  then mkPrompt (id p) (organizationId p) (name p) (type p) (content p)
                (version p) (parentPromptId p) false (createdBy p)
  else p.

Definition update (newId : Id) (id0 : Id) (input : UpdatePromptInput)
           (table : list Prompt) : option Prompt * list Prompt :=
  match findById id0 table with
  | None => (None, table)
  | Some currentPrompt =>
      let newVersion :=
        mkPrompt newId (organizationId currentPrompt)
                 (Js.orElse (updatedName input) (name currentPrompt))
                 (type currentPrompt)
                 (Js.orElse (updatedContent input) (content currentPrompt))
                 (version currentPrompt + 1) (Some id0) true
                 (updatedBy input) in
      (Some newVersion, map (deactivate id0) table ++ [newVersion])
  end.



(** A prompt that is created and then updated [K] times, each update
    applied to the row the previous operation returned.  A step is the
    id drawn for the new row and the update input. *)
Fixpoint updates (current : Id) (steps : list (Id * UpdatePromptInput))
         (table : list Prompt) : list Prompt :=
  match steps with
  | [] => table
  | (newId, input) :: rest =>
      match update newId current input table with
      | (Some newVersion, table') => updates (id newVersion) rest table'
      | (None, table') => table'
      end
  end.





End PromptModel.

Module PromptSamples.

Import PromptModel.
Open Scope string_scope.




End PromptSamples.

(* ------------------------------------------------------------------ *)
(** ** Trusted-data utilities: [evaluatePolicies], [filterOutBlockedData]

    The file [routes/proxy/utils/trusted-data.ts] is not among the
    sources; its test-suite [trusted-data.test.ts] is.  The functions are
    modelled from section 4.2 of the specification, and the runs of the
    test-suite are replayed on the model further down. *)

Module TrustedData.

Inductive Role := system | user | assistant | tool.

Definition isTool (r : Role) : bool :=
  match r with tool => true | _ => false end.

Definition isAssistant (r : Role) : bool :=
  match r with assistant => true | _ => false end.

Record ToolCall := mkToolCall {
  callId : string;
  functionName : string;
  arguments : string
}.

(** A chat-completion message, in the shape the tests give it. *)
Record Message := mkMessage {
  role : Role;
  content : option string;
  tool_call_id : option string;
  tool_calls : list ToolCall
}.

Record Interaction := mkInteraction {
  chatId : Id;
  message : Message;          (* the column [content] *)
  trusted : bool;
  blocked : bool;
  reason : option string
}.

Inductive TrustedDataPolicyAction := block_always | mark_as_trusted.

(** A row of [trustedDataPoliciesTable]. *)
Record TrustedDataPolicy := mkPolicy {
  policyId : Id;
  policyToolId : Id;
  description : string;
  attributePath : string;
  operator : string;
  value : string;
  action : TrustedDataPolicyAction
}.

Record Tool := mkTool {
  toolId : Id;
  toolAgentId : Id;
  toolName : string
}.

Record Store := mkStore {
  interactions : list Interaction;
  chats : list (Id * Id);               (* (chatId, agentId) *)
  tools : list Tool;
  policies : list TrustedDataPolicy;
  agentPolicies : list (Id * Id)        (* (agentId, policyId) *)
}.

Definition noMatchReason : string :=
  "content does not match any trust policies".

Definition isBlockAlways (p : TrustedDataPolicy) : bool :=
  match action p with block_always => true | mark_as_trusted => false end.

Definition isMarkAsTrusted (p : TrustedDataPolicy) : bool :=
  match action p with mark_as_trusted => true | block_always => false end.

Definition sameCall (id0 : option string) (m : Message) : bool :=
  match id0, tool_call_id m with
  | Some a, Some b => String.eqb a b
  | _, _ => false
  end.

Section Engine.

(** Modelled from the spec: the attribute evaluator of section 4.1 is
    not among the sources.  It is a parameter: whether the policy's
    [(attributePath, operator, value)] matches the tool-result
    content. *)
Variable matches : TrustedDataPolicy -> string -> bool.

(** Modelled from the spec: step 1, "walking back through previously
    persisted interactions of the same chat to find the assistant
    message carrying the matching [tool_call_id]; from that it obtains
    the tool name". *)
Definition toolNameFromHistory (st : Store) (chat : Id)
           (toolCallId : string) : option string :=
  let carries (i : Interaction) :=
    if String.eqb (chatId i) chat && isAssistant (role (message i))
    then find (fun c => String.eqb (callId c) toolCallId)
              (tool_calls (message i))
    else None in
  match find (fun i => match carries i with Some _ => true | None => false end)
             (rev (interactions st)) with
  | Some i => option_map functionName (carries i)
  | None => None
  end.

(** Modelled from the spec: step 1, "from the agent's tool set it
    obtains the [toolId]"; the agent is the agent of the chat. *)
Definition resolveTool (st : Store) (chat : Id) (toolCallId : string)
  : option (Id * Tool) :=
  match toolNameFromHistory st chat toolCallId with
  | None => None
  | Some n =>
      match find (fun c => String.eqb (fst c) chat) (chats st) with
      | None => None
      | Some (_, agentId) =>
          match find (fun t => String.eqb (toolAgentId t) agentId
                               && String.eqb (toolName t) n) (tools st) with
          | Some t => Some (agentId, t)
          | None => None
          end
      end
  end.

(** Modelled from the spec: step 3, "all trusted-data policies bound
    to the agent and to this [toolId]". *)
Definition boundPolicies (st : Store) (agentId : Id) (t : Tool)
  : list TrustedDataPolicy :=
  filter (fun p =>
            String.eqb (policyToolId p) (toolId t)
            && existsb (fun b => String.eqb (fst b) agentId
                                 && String.eqb (snd b) (policyId p))
                       (agentPolicies st))
         (policies st).

(** Modelled from the spec: steps 4 to 6, the triple
    [(trusted, blocked, reason)]. *)
Definition classify (bound : list TrustedDataPolicy) (c : string)
  : bool * bool * string :=
  match find (fun p => isBlockAlways p && matches p c) bound with
  | Some p => (false, true, description p)
  | None =>
      match find (fun p => isMarkAsTrusted p && matches p c) bound with
      | Some p => (true, false, description p)
      | None => (false, false, noMatchReason)
      end
  end.

Definition contentOf (m : Message) : string :=
  match content m with Some c => c | None => "" end.

(** Modelled from the spec: the turn of the loop of [evaluatePolicies]
    for one message, steps 1 to 6; [None] when the message is ignored.
    The persisted row carries the message as its content. *)
Definition evaluateMessage (st : Store) (chat : Id) (m : Message)
  : option Interaction :=
  if isTool (role m) then
    match tool_call_id m with
    | None => None
    | Some toolCallId =>
        match resolveTool st chat toolCallId with
        | None => None
        | Some (agentId, t) =>
            let '(isTrusted, isBlocked, why) :=
              classify (boundPolicies st agentId t) (contentOf m) in
            Some (mkInteraction chat m isTrusted isBlocked (Some why))
        end
    end
  else None.

(** Modelled from the spec: [InteractionModel.create] as the test-suite
    calls it, appending one row. *)
Definition persist (st : Store) (i : Interaction) : Store :=
  mkStore (interactions st ++ [i]) (chats st) (tools st) (policies st)
          (agentPolicies st).

(** Modelled from the spec: [evaluatePolicies(messages, chatId)], one
    message after the other, each against the store the previous ones
    left. *)
Fixpoint evaluatePolicies (messages : list Message) (chat : Id)
         (st : Store) : Store :=
  match messages with
  | [] => st
  | m :: rest =>
      match evaluateMessage st chat m with
      | Some i => evaluatePolicies rest chat (persist st i)
      | None => evaluatePolicies rest chat st
      end
  end.

End Engine.

(** Modelled from the spec: "whose prior persisted interaction had
    [blocked=true]": some persisted tool interaction of the chat with this
    [tool_call_id] is blocked. *)
Definition blockedInChat (st : Store) (chat : Id) (m : Message) : bool :=
  existsb (fun i => String.eqb (chatId i) chat
                    && isTool (role (message i))
                    && sameCall (tool_call_id m) (message i)
                    && blocked i)
          (interactions st).

(** Modelled from the spec: "returns the subset of [messages] omitting
    every [tool] message whose prior persisted interaction had
    [blocked=true].  Non-tool messages pass through unchanged." *)
Definition filterOutBlockedData (chat : Id) (messages : list Message)
           (st : Store) : list Message :=
  filter (fun m => negb (isTool (role m) && blockedInChat st chat m))
         messages.

(** The tool interactions of the chat that belong to a message. *)
Definition interactionsOf (st : Store) (chat : Id) (m : Message)
  : list Interaction :=
  filter (fun i => String.eqb (chatId i) chat
                   && isTool (role (message i))
                   && sameCall (tool_call_id m) (message i))
         (interactions st).

(** [needle] occurs in [s]. *)
Fixpoint occursIn (needle s : string) : bool :=
  String.prefix needle s
  || match s with
     | EmptyString => false
     | String _ rest => occursIn needle rest
     end.

(** The row [i] is the classification of message [m] of chat [chat]
    against the store [st], as steps 4 to 6 word it. *)
Definition classifiedAs (matches : TrustedDataPolicy -> string -> bool)
           (st : Store) (chat : Id) (m : Message) (i : Interaction) : Prop :=
  chatId i = chat /\ message i = m
  /\ exists toolCallId agentId t,
       tool_call_id m = Some toolCallId
       /\ resolveTool st chat toolCallId = Some (agentId, t)
       /\ let bound := boundPolicies st agentId t in
          let blocks p := isBlockAlways p && matches p (contentOf m) in
          let trusts p := isMarkAsTrusted p && matches p (contentOf m) in
          (existsb blocks bound = true ->
             trusted i = false /\ blocked i = true
             /\ exists p, In p bound /\ blocks p = true
                          /\ reason i = Some (description p))
          /\ (existsb blocks bound = false -> existsb trusts bound = true ->
                trusted i = true /\ blocked i = false
                /\ exists p, In p bound /\ trusts p = true
                             /\ reason i = Some (description p))
          /\ (existsb blocks bound = false -> existsb trusts bound = false ->
                trusted i = false /\ blocked i = false
                /\ exists why, reason i = Some why
                               /\ occursIn noMatchReason why = true).

(** The message is a tool message whose tool call resolves. *)
Definition resolvable (st : Store) (chat : Id) (m : Message) : bool :=
  isTool (role m)
  && match tool_call_id m with
     | Some toolCallId =>
         match resolveTool st chat toolCallId with
         | Some _ => true
         | None => false
         end
     | None => false
     end.

(** The store reached from [st0] by persisting tool messages. *)
Definition grownFrom (st0 st : Store) : Prop :=
  chats st = chats st0 /\ tools st = tools st0 /\ policies st = policies st0
  /\ agentPolicies st = agentPolicies st0
  /\ forall chat toolCallId,
       resolveTool st chat toolCallId = resolveTool st0 chat toolCallId.

End TrustedData.

(** The runs of [trusted-data.test.ts], on the model.  Tool results are
    written without quotation marks. *)
Module TrustedSamples.

Import TrustedData.
Open Scope string_scope.

(** A stand-in for the attribute evaluator in the sample runs: the
    policy value occurs in the raw content. *)
Definition sampleMatcher (p : TrustedDataPolicy) (c : string) : bool :=
  occursIn (value p) c.

Definition allowPolicy : TrustedDataPolicy :=
  mkPolicy "policy-allow" "tool-1" "Allow trusted emails" "emails[*].from"
           "endsWith" "@trusted.com" mark_as_trusted.

Definition blockPolicy : TrustedDataPolicy :=
  mkPolicy "policy-block" "tool-1" "Block hacker emails" "emails[*].from"
           "contains" "hacker" block_always.

Definition assistantCall (callId0 : string) : Interaction :=
  mkInteraction "chat-1"
    (mkMessage assistant None None [mkToolCall callId0 "get_emails" "{}"])
    true false None.

Definition toolMessage (callId0 c : string) : Message :=
  mkMessage tool (Some c) (Some callId0) [].

Definition say (r : Role) (c : string) : Message :=
  mkMessage r (Some c) None [].

Definition store : Store :=
  mkStore [assistantCall "call_123"; assistantCall "call_456";
           assistantCall "call_789"]
          [("chat-1", "agent-1")]
          [mkTool "tool-1" "agent-1" "get_emails"]
          [allowPolicy; blockPolicy]
          [("agent-1", "policy-allow"); ("agent-1", "policy-block")].

Definition trustedResult : Message :=
  toolMessage "call_123" "from: user@trusted.com, from: admin@trusted.com".

Definition hackerResult : Message :=
  toolMessage "call_456" "from: user@company.com, from: hacker@evil.com".

Definition untrustedResult : Message :=
  toolMessage "call_789" "from: user@untrusted.com".

(** The store of the test "filters multiple blocked tool messages". *)
Definition blockedStore : Store :=
  mkStore [mkInteraction "chat-1" (toolMessage "blocked_1" "blocked data 1")
                         false true None;
           mkInteraction "chat-1" (toolMessage "blocked_2" "blocked data 2")
                         false true None]
          [("chat-1", "agent-1")] [] [] [].

Definition blockedConversation : list Message :=
  [say user "Get data";
   toolMessage "blocked_1" "blocked data 1";
   toolMessage "blocked_2" "blocked data 2";
   toolMessage "allowed" "allowed data"].

End TrustedSamples.

(* ------------------------------------------------------------------ *)
(** ** The Anthropic messages handler [handleMessages]

    The handler is embedded as a function from the request and the
    answers of its collaborators to the list of effects it performs, in
    order.  The collaborators whose code is not among the sources (the
    agent model, the tool utilities, the dual-LLM evaluator, the
    tool-invocation evaluator, the upstream client, the interaction model)
    are fields of [Collaborators].  Provider payloads the handler passes
    on without looking inside are kept as their JSON text. *)

Module AnthropicProxy.

Open Scope string_scope.
Open Scope list_scope.
Open Scope Z_scope.

Definition Json := string.

(** The [input] of a [tool_use] block: an object on the wire, a string
    while [input_json_delta]s are appended to it, whatever [JSON.parse]
    yields afterwards. *)
Inductive Input :=
| InputObject (json : Json)
| InputString (s : string).

Record ToolUse := mkToolUse {
  toolUseId : string;
  toolUseName : string;
  input : Input
}.

Inductive ContentBlock :=
| tool_use (block : ToolUse)
| text (t : string)
| other_block (raw : Json).

Inductive Delta :=
| text_delta (t : string)
| input_json_delta (partial_json : string)
| other_delta (raw : Json).

Inductive StreamEvent :=
| message_start (messageId : string) (usage : Json)
| content_block_start (index : nat) (content_block : ContentBlock)
| content_block_delta (index : nat) (delta : Delta)
| other_event (raw : Json).

(** What [reply.raw.write] is called with. *)
Inductive Sse :=
| Forwarded (event : StreamEvent)   (* an upstream event, re-serialised *)
| TextDelta (t : string)            (* a [content_block_delta] of index 0
                                       made by the handler *)
| MessageDelta                      (* [stop_reason: end_turn] *)
| MessageStop.

Record ToolDeclaration := mkToolDeclaration {
  declaredName : string;
  declaredType : option string;
  declaredDescription : option string;
  input_schema : Json
}.

Record MessagesRequest := mkMessagesRequest {
  requestModel : string;
  messages : list Json;
  tools : option (list ToolDeclaration);
  stream : bool
}.

Record MessagesResponse := mkMessagesResponse {
  responseId : string;
  responseContent : list ContentBlock;
  responseUsage : Json
}.

(** A thrown [Error], with its [status] property when it has one. *)
Record Failure := mkFailure {
  failureStatus : option Z;
  failureMessage : string
}.

Inductive Answer (A : Type) :=
| Returned (a : A)
| Raised (e : Failure).
Arguments Returned {A} a.
Arguments Raised {A} e.

Inductive ReplyBody :=
| ErrorBody (message type : string)
| MessageBody (response : MessagesResponse).

Inductive Effect :=
| Header (name value : string)
| Write (chunk : Sse)
| EndOfStream
| Reply (status : Z) (body : ReplyBody)
| PersistTools (agentId : Id) (names : list string)
| UpstreamStream (request : list Json)
| UpstreamCreate (request : list Json) (tools : option (list ToolDeclaration))
| ExecuteMcpToolCalls (agentId : Id) (calls : list ToolUse)
| CreateInteraction (agentId : Id) (type : string)
                    (response : MessagesResponse).

(** The calls of the dual-LLM evaluator to the two callbacks the handler
    passes it. *)
Inductive DualLlmCall :=
| OnStart
| OnProgress (question : string) (options : list string) (answer : string).

Record ProposedCall := mkProposedCall {
  toolCallName : string;
  toolCallArgs : string
}.

Record Collaborators := mkCollaborators {
  (** [AgentModel.findById]: whether the agent exists. *)
  findById : Id -> Answer bool;
  getAgentIdFromRequest : option string -> Answer Id;
  persistTools : list ToolDeclaration -> Id -> Answer unit;
  getAssignedMCPTools : Id -> Answer (list ToolDeclaration);
  (** [evaluateIfContextIsTrusted] after [toCommonFormat]: the callbacks
      it calls, then its result [(toolResultUpdates, contextIsTrusted)]. *)
  evaluateIfContextIsTrusted :
    list Json -> Id -> list DualLlmCall * Answer (Json * bool);
  applyUpdates : list Json -> Json -> list Json;
  (** The events of [messages.stream], and the error that ends the
      iteration when there is one. *)
  upstreamStream : list Json -> list StreamEvent * option Failure;
  upstreamCreate :
    list Json -> option (list ToolDeclaration) -> Answer MessagesResponse;
  (** [utils.toolInvocation.evaluatePolicies]: [null], or the pair
      [[refusalMessage, contentMessage]]. *)
  evaluateToolInvocation :
    list ProposedCall -> Id -> bool -> Answer (option (string * string));
  executeMcpToolCalls : list ToolUse -> Id -> Answer (list Json);
  toolResultsToMessages : list Json -> list Json;
  assistantMessage : list ContentBlock -> Json;
  createInteraction : Id -> string -> MessagesResponse -> Answer unit;
  jsonParse : string -> option Input;
  jsonStringify : Input -> string
}.

(** The handler monad: the effects so far, and a result or a thrown
    error. *)
Definition H (A : Type) := list Effect -> Answer A * list Effect.

Definition pure {A} (a : A) : H A := fun tr => (Returned a, tr).

Definition andThen {A B} (m : H A) (k : A -> H B) : H B :=
  fun tr =>
    match m tr with
    | (Returned a, tr') => k a tr'
    | (Raised e, tr') => (Raised e, tr')
    end.

Definition emit (e : Effect) : H unit := fun tr => (Returned tt, tr ++ [e]).

Definition await {A} (a : Answer A) : H A := fun tr => (a, tr).

Definition catching {A} (m : H A) (handler : Failure -> H A) : H A :=
  fun tr =>
    match m tr with
    | (Returned a, tr') => (Returned a, tr')
    | (Raised e, tr') => handler e tr'
    end.

Declare Scope h_scope.
Delimit Scope h_scope with H.
Notation "x <-- m ;; k" := (andThen m (fun x => k))
  (at level 61, m at next level, right associativity) : h_scope.
Notation "m ;;> k" := (andThen m (fun _ => k))
  (at level 61, right associativity) : h_scope.
Open Scope h_scope.

Fixpoint emitAll (es : list Effect) : H unit :=
  match es with
  | [] => pure tt
  | e :: rest => emit e ;;> emitAll rest
  end.

(** [Map.set]: replace the value of an existing key in place, else append. *)
Fixpoint mapSet (t : ToolDeclaration) (m : list ToolDeclaration)
  : list ToolDeclaration :=
  match m with
  | [] => [t]
  | u :: rest =>
      if String.eqb (declaredName u) (declaredName t) then t :: rest
      else u :: mapSet t rest
  end.

(** [injectTools]: assigned tools override request tools of the same name. *)
Definition injectTools (c : Collaborators)
           (requestTools : option (list ToolDeclaration)) (agentId : Id)
  : H (list ToolDeclaration) :=
  assignedTools <-- await (getAssignedMCPTools c agentId) ;;
  let assignedAnthropicTools :=
    map (fun t => mkToolDeclaration (declaredName t) (Some "custom")
                    (declaredDescription t) (input_schema t))
        assignedTools in
  let requestToolMap :=
    fold_left (fun m t => mapSet t m)
              (match requestTools with Some ts => ts | None => [] end) [] in
  pure (fold_left (fun m t => mapSet t m) assignedAnthropicTools
                  requestToolMap).

(** [tool.type === undefined || tool.type === null || tool.type === "custom"]. *)
Definition isCustom (t : ToolDeclaration) : bool :=
  match declaredType t with
  | None => true
  | Some ty => String.eqb ty "custom"
  end.

(** [(lastToolCall.input || "") + event.delta.partial_json]: an object is
    truthy and is converted to a string by [+]. *)
Definition appendJson (i : Input) (partial_json : string) : Input :=
  match i with
  | InputString s => InputString (s ++ partial_json)%string
  | InputObject _ => InputString ("[object Object]" ++ partial_json)%string
  end.

(** The locals of the streaming loop.  [accumulatedToolCalls] holds the
    very [content_block] objects of the [tool_use] start events, so the
    k-th call here is the block of the k-th such event in [events]. *)
Record Accumulator := mkAccumulator {
  accumulatedText : string;
  accumulatedToolCalls : list ToolUse
}.

Definition appendToLast (calls : list ToolUse) (partial_json : string)
  : list ToolUse :=
  match rev calls with
  | [] => []
  | lastToolCall :: before =>
      rev before
      ++ [mkToolUse (toolUseId lastToolCall) (toolUseName lastToolCall)
                    (appendJson (input lastToolCall) partial_json)]
  end.

(** One turn of [for await (const event of messageStream)]: what is
    written at once, and the locals afterwards. *)
Definition onEvent (event : StreamEvent) (acc : Accumulator)
  : list Sse * Accumulator :=
  match event with
  | content_block_delta _ (text_delta t) =>
      ([Forwarded event],
       mkAccumulator (accumulatedText acc ++ t)%string
                     (accumulatedToolCalls acc))
  | content_block_start _ (tool_use block) =>
      ([], mkAccumulator (accumulatedText acc)
                         (accumulatedToolCalls acc ++ [block]))
  | content_block_delta _ (input_json_delta partial_json) =>
      ([], mkAccumulator (accumulatedText acc)
                         (appendToLast (accumulatedToolCalls acc) partial_json))
  | _ => ([], acc)
  end.

Fixpoint streamLoop (events : list StreamEvent) (acc : Accumulator)
  : list Sse * Accumulator :=
  match events with
  | [] => ([], acc)
  | event :: rest =>
      let (written, acc') := onEvent event acc in
      let (later, final) := streamLoop rest acc' in
      (written ++ later, final)
  end.

(** [toolCall.input = JSON.parse(toolCall.input)], left as it is when
    parsing fails; an input that is still an object is not JSON text. *)
Definition parseInput (c : Collaborators) (call : ToolUse) : ToolUse :=
  match input call with
  | InputString s =>
      match jsonParse c s with
      | Some v => mkToolUse (toolUseId call) (toolUseName call) v
      | None => call
      end
  | InputObject _ => call
  end.


(** The second loop over [events], which writes the buffered tool-use
    events.  A [tool_use] start event is written with its block as it is
    by then: the accumulated and parsed call. *)
Fixpoint flush (events : list StreamEvent) (calls : list ToolUse)
  : list Sse :=
  match events with
  | [] => []
  | content_block_start index (tool_use block) :: rest =>
      match calls with
      | call :: calls' =>
          Forwarded (content_block_start index (tool_use call))
            :: flush rest calls'
      | [] =>
          Forwarded (content_block_start index (tool_use block))
            :: flush rest []
      end
  | content_block_delta index (input_json_delta partial_json) :: rest =>
      Forwarded (content_block_delta index (input_json_delta partial_json))
        :: flush rest calls
  | _ :: rest => flush rest calls
  end.

Definition proposedCalls (c : Collaborators) (calls : list ToolUse)
  : list ProposedCall :=
  map (fun call => mkProposedCall (toolUseName call)
                                  (jsonStringify c (input call)))
      calls.

(** [messageStartEvent?.message.id || "msg-unknown"] and
    [messageStartEvent?.message.usage || { input_tokens: 0, output_tokens: 0 }]. *)
Definition messageStartOf (events : list StreamEvent)
  : string * Json :=
  match find (fun e => match e with message_start _ _ => true | _ => false end)
             events with
  | Some (message_start messageId usage) =>
      (Js.orElse (Some messageId) "msg-unknown", usage)
  | _ => ("msg-unknown", "{input_tokens: 0, output_tokens: 0}")
  end.

(** What the streaming branch does once the upstream stream has ended:
    evaluate the accumulated tool calls, write the refusal or the buffered
    tool-use events, persist, write the terminal events. *)
Definition afterStream (c : Collaborators) (agentId : Id)
           (contextIsTrusted : bool) (events : list StreamEvent)
           (acc : Accumulator) : H unit :=
  let calls := map (parseInput c) (accumulatedToolCalls acc) in
  toolInvocationRefusal <--
    match calls with
    | [] => pure None
    | _ :: _ =>
        await (evaluateToolInvocation c (proposedCalls c calls) agentId
                                      contextIsTrusted)
    end ;;
  content <--
    match toolInvocationRefusal with
    | Some (_, contentMessage) =>
        emit (Write (TextDelta contentMessage)) ;;>
        pure [text contentMessage]
    | None =>
        match calls with
        | _ :: _ =>
            emitAll (map Write (flush events calls)) ;;>
            pure (match accumulatedText acc with
                  | EmptyString => []
                  | t => [text t]
                  end ++ map tool_use calls)
        | [] => pure [text (accumulatedText acc)]
        end
    end ;;
  let (messageId, usage) := messageStartOf events in
  emit (CreateInteraction agentId "anthropic:messages"
          (mkMessagesResponse messageId content usage)) ;;>
  await (createInteraction c agentId "anthropic:messages"
           (mkMessagesResponse messageId content usage)) ;;>
  emit (Write MessageDelta) ;;>
  emit (Write MessageStop) ;;>
  emit EndOfStream.

Definition streamingBranch (c : Collaborators) (body : MessagesRequest)
           (agentId : Id) (filteredMessages : list Json)
           (contextIsTrusted : bool) : H unit :=
  emit (UpstreamStream filteredMessages) ;;>
  let (events, failure) := upstreamStream c filteredMessages in
  let (written, acc) := streamLoop events (mkAccumulator "" []) in
  emitAll (map Write written) ;;>
  match failure with
  | Some e => await (Raised e)
  | None => afterStream c agentId contextIsTrusted events acc
  end.

Definition toolUsesOf (content : list ContentBlock) : list ToolUse :=
  flat_map (fun b => match b with tool_use call => [call] | _ => [] end)
           content.

Definition unaryBranch (c : Collaborators) (body : MessagesRequest)
           (agentId : Id) (mergedTools : list ToolDeclaration)
           (filteredMessages : list Json) (contextIsTrusted : bool)
  : H unit :=
  let toolsToSend := match mergedTools with
                     | [] => None
                     | _ :: _ => Some mergedTools
                     end in
  emit (UpstreamCreate filteredMessages toolsToSend) ;;>
  response <-- await (upstreamCreate c filteredMessages toolsToSend) ;;
  let toolCalls := toolUsesOf (responseContent response) in
  toolInvocationRefusal <--
    await (evaluateToolInvocation c (proposedCalls c toolCalls) agentId
                                  contextIsTrusted) ;;
  match toolInvocationRefusal with
  | Some (_, contentMessage) =>
      let refused := mkMessagesResponse (responseId response)
                       [text contentMessage] (responseUsage response) in
      emit (CreateInteraction agentId "anthropic:messages" refused) ;;>
      await (createInteraction c agentId "anthropic:messages" refused) ;;>
      emit (Reply 200 (MessageBody refused))
  | None =>
      final <--
        match toolCalls with
        | [] => pure response
        | _ :: _ =>
            emit (ExecuteMcpToolCalls agentId toolCalls) ;;>
            mcpResults <-- await (executeMcpToolCalls c toolCalls agentId) ;;
            match mcpResults with
            | [] => pure response
            | _ :: _ =>
                let updatedMessages :=
                  filteredMessages
                  ++ [assistantMessage c (responseContent response)]
                  ++ toolResultsToMessages c mcpResults in
                emit (UpstreamCreate updatedMessages toolsToSend) ;;>
                await (upstreamCreate c updatedMessages toolsToSend)
            end
        end ;;
      emit (CreateInteraction agentId "anthropic:messages" final) ;;>
      await (createInteraction c agentId "anthropic:messages" final) ;;>
      emit (Reply 200 (MessageBody final))
  end.

Definition newline : string := String (Ascii.ascii_of_nat 10) EmptyString.

(** [options.map((opt, idx) => `  ${idx}: ${opt}`)]. *)
Fixpoint optionLines (idx : nat) (options : list string) : list string :=
  match options with
  | [] => []
  | opt :: rest =>
      ("  " ++ NilEmpty.string_of_uint (Nat.to_uint idx) ++ ": " ++ opt)%string
        :: optionLines (S idx) rest
  end.

(** The text deltas the two callbacks write. *)
Definition dualLlmWrite (call : DualLlmCall) : Sse :=
  match call with
  | OnStart =>
      TextDelta ("Analyzing with Dual LLM:" ++ newline ++ newline)%string
  | OnProgress question options answer =>
      TextDelta ("Question: " ++ question ++ newline
                 ++ "Options:" ++ newline
                 ++ String.concat newline (optionLines 0 options) ++ newline
                 ++ "Answer: " ++ answer ++ newline ++ newline)%string
  end.

(** The [try] block of [handleMessages]. *)
Definition proxied (c : Collaborators) (body : MessagesRequest)
           (resolvedAgentId : Id) : H unit :=
  match tools body with
  | Some ts =>
      let transformedTools := filter isCustom ts in
      emit (PersistTools resolvedAgentId (map declaredName transformedTools)) ;;>
      await (persistTools c transformedTools resolvedAgentId)
  | None => pure tt
  end ;;>
  mergedTools <-- injectTools c (tools body) resolvedAgentId ;;
  (if stream body
   then emit (Header "Content-Type" "text/event-stream") ;;>
        emit (Header "Cache-Control" "no-cache") ;;>
        emit (Header "Connection" "keep-alive")
   else pure tt) ;;>
  let (callbacks, evaluation) :=
    evaluateIfContextIsTrusted c (messages body) resolvedAgentId in
  (if stream body
   then emitAll (map (fun call => Write (dualLlmWrite call)) callbacks)
   else pure tt) ;;>
  trust <-- await evaluation ;;
  let (toolResultUpdates, contextIsTrusted) := trust in
  let filteredMessages := applyUpdates c (messages body) toolResultUpdates in
  if stream body
  then streamingBranch c body resolvedAgentId filteredMessages contextIsTrusted
  else unaryBranch c body resolvedAgentId mergedTools filteredMessages
                   contextIsTrusted.

(** [handleMessages(body, headers, reply, agentId?)].  The agent is
    resolved outside the [try]; an error thrown there is not caught by
    the handler. *)
Definition handleMessages (c : Collaborators) (body : MessagesRequest)
           (userAgent : option string) (agentId : option Id) : H unit :=
  let run resolvedAgentId :=
    catching (proxied c body resolvedAgentId)
      (fun e =>
         emit (Reply (match failureStatus e with
                      | Some status => status
                      | None => 500
                      end)
                     (ErrorBody (failureMessage e) "api_error"))) in
  let byUserAgent :=
    fromRequest <-- await (getAgentIdFromRequest c userAgent) ;;
    run fromRequest in
  match agentId with
  | Some given =>
      if Js.truthy agentId then
        found <-- await (findById c given) ;;
        if found then run given
        else emit (Reply 404
                     (ErrorBody ("Agent with ID " ++ given ++ " not found")%string
                                "not_found"))
      else byUserAgent
  | None => byUserAgent
  end.

(** The agent a request resolves to, when it does. *)
Definition resolvedAgent (c : Collaborators) (userAgent : option string)
           (agentId : option Id) : option Id :=
  let byUserAgent :=
    match getAgentIdFromRequest c userAgent with
    | Returned fromRequest => Some fromRequest
    | Raised _ => None
    end in
  match agentId with
  | Some given =>
      if Js.truthy agentId then
        match findById c given with
        | Returned true => Some given
        | _ => None
        end
      else byUserAgent
  | None => byUserAgent
  end.

(** The steps of the [try] block before the primary call all return:
    persisting the declared tools, reading the assigned tools, the
    trusted-data evaluation. *)
Definition reachesPrimaryCall (c : Collaborators) (body : MessagesRequest)
           (resolvedAgentId : Id) : Prop :=
  match tools body with
  | Some ts => persistTools c (filter isCustom ts) resolvedAgentId
               = Returned tt
  | None => True
  end
  /\ (exists assigned, getAssignedMCPTools c resolvedAgentId = Returned assigned)
  /\ (exists trust,
        snd (evaluateIfContextIsTrusted c (messages body) resolvedAgentId)
        = Returned trust).

(** The only interaction type the handler persists. *)
Definition persistsMessagesOnly (e : Effect) : Prop :=
  match e with
  | CreateInteraction _ type _ => type = "anthropic:messages"
  | _ => True
  end.

(** The effects of one request, in order. *)
Definition effectsOf (c : Collaborators) (body : MessagesRequest)
           (userAgent : option string) (agentId : option Id) : list Effect :=
  snd (handleMessages c body userAgent agentId []).

Definition isUpstreamCall (e : Effect) : bool :=
  match e with
  | UpstreamStream _ | UpstreamCreate _ _ => true
  | _ => false
  end.




(** The computation [m] only appends effects, all of them [ok]. *)
Definition adds (ok : Effect -> Prop) {A} (m : H A) : Prop :=
  forall tr, exists more, snd (m tr) = tr ++ more /\ Forall ok more.

(** Any effect at all. *)
Definition anyEffect (e : Effect) : Prop := True.

(** What the handler does before the primary call: persisting the tool
    declarations, the streaming headers, the dual-LLM text deltas. *)
Definition isPreliminary (e : Effect) : Prop :=
  match e with
  | PersistTools _ _ | Header _ _ | Write (TextDelta _) => True
  | _ => False
  end.



End AnthropicProxy.

(** A request against collaborators that all succeed: the upstream model
    proposes one tool call, which the evaluator allows or refuses. *)
Module ProxySamples.

Import AnthropicProxy.
Open Scope string_scope.
Open Scope list_scope.

Definition upstreamEvents : list StreamEvent :=
  [message_start "msg-1" "{}";
   content_block_start 0 (text "");
   content_block_delta 0 (text_delta "Let me check.");
   content_block_start 1 (tool_use (mkToolUse "toolu-1" "get_emails"
                                              (InputString "")));
   content_block_delta 1 (input_json_delta "{folder:");
   content_block_delta 1 (input_json_delta " inbox}");
   other_event "content_block_stop";
   other_event "message_stop"].

Definition collaborators (verdict : option (string * string)) : Collaborators :=
  mkCollaborators
    (fun _ => Returned true)
    (fun _ => Returned "default-agent")
    (fun _ _ => Returned tt)
    (fun _ => Returned [])
    (fun _ _ => ([], Returned ("{}", true)))
    (fun ms _ => ms)
    (fun _ => (upstreamEvents, None))
    (fun _ _ => Returned (mkMessagesResponse "msg-2" [text "Done."] "{}"))
    (fun _ _ _ => Returned verdict)
    (fun _ _ => Returned [])
    (fun rs => rs)
    (fun _ => "assistant")
    (fun _ _ _ => Returned tt)
    (fun s => Some (InputObject s))
    (fun i => match i with InputObject j => j | InputString s => s end).

Definition request (streaming : bool) : MessagesRequest :=
  mkMessagesRequest "claude" ["hello"] None streaming.

End ProxySamples.

(* ================================================================== *)
(** * Theorems *)

Open Scope Z_scope.
Open Scope string_scope.
Open Scope list_scope.

(* ------------------------------------------------------------------ *)
(** ** Running the effect monad *)

Lemma bind_ok A B (m : M A) (k : A -> M B) w a w' :
  m w = (Ok a, w') -> bind m k w = k a w'.
Proof. intros E. unfold bind. now rewrite E. Qed.

Lemma bind_thrown A B (m : M A) (k : A -> M B) w w' :
  m w = (Thrown, w') -> bind m k w = (Thrown, w').
Proof. intros E. unfold bind. now rewrite E. Qed.

Lemma tryCatch_ok A (m h : M A) w a w' :
  m w = (Ok a, w') -> tryCatch m h w = (Ok a, w').
Proof. intros E. unfold tryCatch. now rewrite E. Qed.

Lemma tryCatch_thrown A (m h : M A) w w' :
  m w = (Thrown, w') -> tryCatch m h w = h w'.
Proof. intros E. unfold tryCatch. now rewrite E. Qed.

(** A handler that cannot throw makes the whole [try] unable to throw. *)
Lemma tryCatch_total A (m h : M A) :
  (forall w, exists a w', h w = (Ok a, w')) ->
  forall w, exists a w', tryCatch m h w = (Ok a, w').
Proof.
  intros H w. unfold tryCatch.
  destruct (m w) as [[a|] w']; [now exists a, w' | apply H].
Qed.

Lemma onlyLogs_refl w : onlyLogs w w.
Proof. repeat split. Qed.



Lemma logAt_run lv msg w :
  logAt lv msg w
  = (Ok tt, mkWorld (db w) (faults w) (clock w) (elapsed w)
                    (log w ++ [(lv, msg)])).
Proof. reflexivity. Qed.

Lemma logAt_onlyLogs lv msg w : onlyLogs w (after (logAt lv msg w)).
Proof. repeat split. Qed.

Lemma statement_quiet A (f : Tables -> A * Tables) w :
  quiet w ->
  statement f w
  = (Ok (fst (f (db w))),
     mkWorld (snd (f (db w))) [] (clock w) (elapsed w) (log w)).
Proof.
  unfold quiet, statement. intros Q. rewrite Q.
  now destruct (f (db w)).
Qed.

Lemma query_quiet A (f : Tables -> A) w :
  quiet w -> query f w = (Ok (f (db w)), w).
Proof.
  intros Q. unfold query. rewrite statement_quiet by assumption. simpl.
  destruct w; unfold quiet in Q; simpl in *; now subst.
Qed.

Lemma statement_fails A (f : Tables -> A * Tables) w fs :
  faults w = true :: fs ->
  statement f w
  = (Thrown, mkWorld (db w) fs (clock w) (elapsed w) (log w)).
Proof. unfold statement. intros Q. now rewrite Q. Qed.

Lemma statement_passes A (f : Tables -> A * Tables) w fs :
  faults w = false :: fs ->
  statement f w
  = (Ok (fst (f (db w))),
     mkWorld (snd (f (db w))) fs (clock w) (elapsed w) (log w)).
Proof.
  unfold statement. intros Q. rewrite Q. now destruct (f (db w)).
Qed.

(* ------------------------------------------------------------------ *)
(** ** One limit *)

Import LimitValidationService.

Lemma orZero_id x : Js.orZero x = x.
Proof. unfold Js.orZero. destruct (Z.eqb_spec x 0); congruence. Qed.

Lemma usageOf_sum l :
  usageOf l = (currentUsageTokensIn l + currentUsageTokensOut l)%Z.
Proof. unfold usageOf. now rewrite !orZero_id. Qed.

Lemma costOf_formula l p :
  costOf l p
  = (Js.num (currentUsageTokensIn l) * pricePerMillionInput p / 1000000
     + Js.num (currentUsageTokensOut l) * pricePerMillionOutput p / 1000000)%float.
Proof. unfold costOf. now rewrite !orZero_id. Qed.

(** In a quiet world the loop body computes the compared value of the
    specification and touches nothing but the log. *)
Lemma comparisonFor_quiet l w :
  quiet w -> limitType l = "token_cost" ->
  exists w',
    comparisonFor l w
    = (Ok (QuotaSpec.comparedValue (tokenPricesTable (db w)) l), w')
    /\ onlyLogs w w'.
Proof.
  intros Q T. unfold comparisonFor, QuotaSpec.comparedValue.
  rewrite T, String.eqb_refl, usageOf_sum.
  destruct (model l) as [m|].
  - destruct (String.eqb m "").
    + eexists. split; [reflexivity | apply logAt_onlyLogs].
    + unfold TokenPriceModel.findByModel.
      destruct (find _ (tokenPricesTable (db w))) as [p|] eqn:F.
      * exists w. split; [|apply onlyLogs_refl].
        apply tryCatch_ok.
        erewrite bind_ok by (apply query_quiet; exact Q).
        rewrite F, costOf_formula. reflexivity.
      * eexists. split.
        -- apply tryCatch_ok.
           erewrite bind_ok by (apply query_quiet; exact Q).
           rewrite F. reflexivity.
        -- repeat split.
  - eexists. split; [reflexivity | apply logAt_onlyLogs].
Qed.

Lemma checkLimit_quiet et eid l w :
  quiet w -> limitType l = "token_cost" ->
  exists w',
    checkLimit et eid l w
    = (Ok (if reaches (QuotaSpec.comparedValue (tokenPricesTable (db w)) l)
                      (limitValue l)
           then Some (QuotaSpec.refusalFor (db w) (et, eid) l)
           else None), w')
    /\ onlyLogs w w'.
Proof.
  intros Q T. destruct (comparisonFor_quiet l w Q T) as (w' & E & L).
  exists w'. split; [|exact L].
  unfold checkLimit. erewrite bind_ok by exact E.
  unfold QuotaSpec.refusalFor. rewrite usageOf_sum. simpl.
  now destruct (reaches _ _).
Qed.






(* ------------------------------------------------------------------ *)
(** ** The reset and the sweep *)

Import LimitModel.















(* ------------------------------------------------------------------ *)
(** ** The pre-check *)






(* ------------------------------------------------------------------ *)
(** ** What one limit is compared on (C6, C10) *)

(** C6 as stated fails: with usage equal to the limit (600 + 400 tokens
    against 1000) the compared value does not exceed [limitValue], and the
    check refuses. *)
Lemma checkLimit_refuses_at_the_limit :
  result (checkLimit agent "agent-1" QuotaSamples.agentLimitAtValue
                     QuotaSamples.calm)
  = Ok (Some (mkRefusal agent "agent-1" "limit-agent" 1000 1000 (Tokens 1000)))
  /\ ~ (limitValue QuotaSamples.agentLimitAtValue
        < currentUsageTokensIn QuotaSamples.agentLimitAtValue
          + currentUsageTokensOut QuotaSamples.agentLimitAtValue)%Z.
Proof. split; [reflexivity | vm_compute; discriminate]. Qed.

(** C6, amended.  For a [token_cost] limit examined without a database
    failure: when [limit.model] is unset the compared value is the token
    sum; when it is set and the model has a price row the compared value
    is [inputCost + outputCost]; and the check refuses on this limit
    exactly when the compared value is greater than or equal to
    [limitValue]. *)
Theorem checkLimit_refuses_iff_reached
        (et : LimitEntityType) (eid : Id) (l : Limit) (w : World) :
  quiet w ->
  limitType l = "token_cost" ->
  let prices := tokenPricesTable (db w) in
  let refused := exists refusal,
                   result (checkLimit et eid l w) = Ok (Some refusal) in
  let allowed := result (checkLimit et eid l w) = Ok None in
  (Js.truthy (model l) = false ->
     QuotaSpec.comparedValue prices l
     = Tokens (currentUsageTokensIn l + currentUsageTokensOut l)
     /\ (refused <->
         (limitValue l <= currentUsageTokensIn l + currentUsageTokensOut l)%Z))
  /\ (forall m p,
        model l = Some m -> m <> "" ->
        find (fun p => String.eqb (priceModel p) m) prices = Some p ->
        let cost :=
          (Js.num (currentUsageTokensIn l) * pricePerMillionInput p / 1000000
           + Js.num (currentUsageTokensOut l) * pricePerMillionOutput p
             / 1000000)%float in
        QuotaSpec.comparedValue prices l = CostDollars cost
        /\ (refused <-> Js.geq cost (Js.num (limitValue l)) = true))
  /\ (refused <->
      reaches (QuotaSpec.comparedValue prices l) (limitValue l) = true)
  /\ (allowed <->
      reaches (QuotaSpec.comparedValue prices l) (limitValue l) = false).
Proof.
  intros Q T prices refused allowed.
  destruct (checkLimit_quiet et eid l w Q T) as (w' & E & _).
  assert (R : refused <->
              reaches (QuotaSpec.comparedValue prices l) (limitValue l) = true).
  { subst refused prices. rewrite E. unfold result. simpl.
    destruct (reaches _ _); split; intros H; try reflexivity.
    - eexists. reflexivity.
    - destruct H as (r & H). discriminate.
    - discriminate. }
  assert (A : allowed <->
              reaches (QuotaSpec.comparedValue prices l) (limitValue l) = false).
  { subst allowed prices. rewrite E. unfold result. simpl.
    destruct (reaches _ _); split; intros H; try reflexivity; discriminate. }
  split; [|split; [|split; assumption]].
  - intros U.
    assert (C : QuotaSpec.comparedValue prices l
                = Tokens (currentUsageTokensIn l + currentUsageTokensOut l)).
    { unfold QuotaSpec.comparedValue. unfold Js.truthy in U.
      destruct (model l) as [m|]; [|reflexivity].
      destruct (String.eqb m ""); [reflexivity | discriminate]. }
    split; [exact C|]. rewrite R, C. simpl. apply Z.leb_le.
  - intros m p Hm Hne Hp cost.
    assert (C : QuotaSpec.comparedValue prices l = CostDollars cost).
    { unfold QuotaSpec.comparedValue. rewrite Hm.
      apply String.eqb_neq in Hne. rewrite Hne.
      fold prices. now rewrite Hp. }
    split; [exact C|]. rewrite R, C. reflexivity.
Qed.

Lemma checkLimit_refuses_iff_reached_witness :
  (exists refusal,
     result (checkLimit agent "agent-1" QuotaSamples.agentLimit
                        QuotaSamples.calm) = Ok (Some refusal))
  /\ (exists refusal,
        result (checkLimit organization "org-1" QuotaSamples.orgLimit
                           QuotaSamples.calm) = Ok (Some refusal)).
Proof.
  split.
  - apply (proj2 (proj1 (checkLimit_refuses_iff_reached
                           agent "agent-1" QuotaSamples.agentLimit
                           QuotaSamples.calm eq_refl eq_refl) eq_refl)).
    vm_compute. discriminate.
  - apply (proj2 (proj1 (proj2 (checkLimit_refuses_iff_reached
                                  organization "org-1" QuotaSamples.orgLimit
                                  QuotaSamples.calm eq_refl eq_refl))
                        "gpt-4" (mkTokenPrice "gpt-4" 3%float 15%float)
                        eq_refl ltac:(discriminate) eq_refl)).
    vm_compute. reflexivity.
Defined.

(** C10 as stated fails on the level of the log line: when the price
    lookup throws, the fallback to the token sum is logged with
    [logger.error], and no warning is logged. *)
Lemma comparisonFor_logs_error_when_lookup_throws :
  comparisonFor QuotaSamples.orgLimit QuotaSamples.failing
  = (Ok (Tokens 3000000),
     mkWorld QuotaSamples.tables [] 5200000 [] 
             [(Error, ErrorConvertingTokensToCost "gpt-4")])
  /\ ~ In Warn (map fst (log (after (comparisonFor QuotaSamples.orgLimit
                                                 QuotaSamples.failing)))).
Proof.
  split; [reflexivity|]. vm_compute. intros [H|[]]. discriminate.
Qed.

(** C10, amended.  For a [token_cost] limit whose [model] is set: when the
    model has no price row, or when the price lookup throws, the loop body
    does not throw and does not skip the limit; it compares the raw token
    sum against [limitValue], refusing exactly when the sum reaches it.
    The only trace is one log line: a warning when the row is missing, an
    error when the lookup threw. *)
Theorem comparisonFor_falls_back_to_tokens
        (et : LimitEntityType) (eid : Id) (l : Limit) (m : string) (w : World) :
  limitType l = "token_cost" ->
  model l = Some m -> m <> "" ->
  let tokens := (currentUsageTokensIn l + currentUsageTokensOut l)%Z in
  let verdict :=
    if (limitValue l <=? tokens)%Z
    then Some (mkRefusal et eid (id l) tokens (limitValue l) (Tokens tokens))
    else None in
  (hd false (faults w) = false ->
   find (fun p => String.eqb (priceModel p) m) (tokenPricesTable (db w)) = None ->
   let w' := mkWorld (db w) (tl (faults w)) (clock w) (elapsed w)
                     (log w ++ [(Warn, NoPricingFound m)]) in
   comparisonFor l w = (Ok (Tokens tokens), w')
   /\ checkLimit et eid l w = (Ok verdict, w'))
  /\ (hd false (faults w) = true ->
      let w' := mkWorld (db w) (tl (faults w)) (clock w) (elapsed w)
                        (log w ++ [(Error, ErrorConvertingTokensToCost m)]) in
      comparisonFor l w = (Ok (Tokens tokens), w')
      /\ checkLimit et eid l w = (Ok verdict, w')).
Proof.
  intros T Hm Hne tokens verdict.
  apply String.eqb_neq in Hne.
  assert (Hc : forall w', comparisonFor l w = (Ok (Tokens tokens), w') ->
                          checkLimit et eid l w = (Ok verdict, w')).
  { intros w' E. unfold checkLimit. erewrite bind_ok by exact E.
    simpl. rewrite usageOf_sum. subst verdict. fold tokens.
    now destruct (limitValue l <=? tokens)%Z. }
  split; intros F.
  - intros P w'.
    assert (E : comparisonFor l w = (Ok (Tokens tokens), w')).
    { unfold comparisonFor. rewrite T, String.eqb_refl, Hm, Hne, usageOf_sum.
      unfold TokenPriceModel.findByModel, query, tryCatch, bind, statement.
      destruct (faults w) as [|[|] fs] eqn:Fw; simpl in F; try discriminate;
        rewrite P; reflexivity. }
    split; [exact E | apply Hc; exact E].
  - intros w'.
    assert (E : comparisonFor l w = (Ok (Tokens tokens), w')).
    { unfold comparisonFor. rewrite T, String.eqb_refl, Hm, Hne, usageOf_sum.
      unfold TokenPriceModel.findByModel, query, tryCatch, bind, statement.
      destruct (faults w) as [|[|] fs] eqn:Fw; simpl in F; try discriminate.
      reflexivity. }
    split; [exact E | apply Hc; exact E].
Qed.

Lemma comparisonFor_falls_back_to_tokens_witness :
  checkLimit agent "agent-2" QuotaSamples.unpricedLimit QuotaSamples.calm
  = (Ok (Some (mkRefusal agent "agent-2" "limit-unpriced" 70 50 (Tokens 70))),
     mkWorld QuotaSamples.tables [] 5200000 [] [(Warn, NoPricingFound "mystery")])
  /\ checkLimit organization "org-1" QuotaSamples.orgLimit QuotaSamples.failing
     = (Ok (Some (mkRefusal organization "org-1" "limit-org" 3000000 20
                            (Tokens 3000000))),
        mkWorld QuotaSamples.tables [] 5200000 []
                [(Error, ErrorConvertingTokensToCost "gpt-4")]).
Proof.
  split.
  - apply (proj1 (comparisonFor_falls_back_to_tokens
                    agent "agent-2" QuotaSamples.unpricedLimit "mystery"
                    QuotaSamples.calm eq_refl eq_refl ltac:(discriminate))
                 eq_refl eq_refl).
  - apply (proj2 (comparisonFor_falls_back_to_tokens
                    organization "org-1" QuotaSamples.orgLimit "gpt-4"
                    QuotaSamples.failing eq_refl eq_refl ltac:(discriminate))
                 eq_refl).
Defined.

(* ------------------------------------------------------------------ *)
(** ** Database failures during the pre-check (C7) *)

(** C7 as stated fails: the agent-level limit is exceeded (the check
    refuses in the calm world), and when the first query throws the check
    returns [null], so the request proceeds as if no limit were exceeded;
    nothing is thrown to the caller. *)
Lemma checkLimitsBeforeRequest_allows_on_failure :
  result (checkLimitsBeforeRequest "agent-1" QuotaSamples.calm)
  = Ok (Some (mkRefusal agent "agent-1" "limit-agent" 1100 1000 (Tokens 1100)))
  /\ checkLimitsBeforeRequest "agent-1" QuotaSamples.failing
     = (Ok None,
        mkWorld QuotaSamples.tables [] 5200000 []
                [(Error, ErrorCheckingLimitsBeforeRequest)]).
Proof. split; vm_compute; reflexivity. Qed.

(** C7, amended.  A database failure during the pre-check never fails the
    request: [checkLimitsBeforeRequest] and [checkEntityLimits] cannot
    throw.  When the first query of [checkLimitsBeforeRequest] throws, it
    logs an error and returns [null] (the request is allowed); when the
    query of a per-entity check throws, that check logs an error and
    returns [null] (the entity counts as not exceeded). *)
Theorem checkLimitsBeforeRequest_never_throws (agentId : Id) (w : World) :
  (exists r, result (checkLimitsBeforeRequest agentId w) = Ok r)
  /\ (hd false (faults w) = true ->
      checkLimitsBeforeRequest agentId w
      = (Ok None,
         mkWorld (db w) (tl (faults w)) (clock w) (elapsed w)
                 (log w ++ [(Error, ErrorCheckingLimitsBeforeRequest)])))
  /\ (forall et eid,
        (exists r, result (checkEntityLimits et eid w) = Ok r)
        /\ (hd false (faults w) = true ->
            checkEntityLimits et eid w
            = (Ok None,
               mkWorld (db w) (tl (faults w)) (clock w) (elapsed w)
                       (log w ++ [(Error, ErrorCheckingEntityLimits et eid)])))).
Proof.
  assert (Total : forall (msg : LogMessage) (m : M (option Refusal)) w0,
            exists r, result (tryCatch m (logAt Error msg ;;; ret None) w0)
                      = Ok r).
  { intros msg m w0.
    destruct (tryCatch_total _ m (logAt Error msg ;;; ret None)
                (fun w1 => ex_intro _ None (ex_intro _ _ eq_refl)) w0)
      as (r & w' & E).
    exists r. now rewrite E. }
  split; [apply Total|]. split.
  - intros F. destruct (faults w) as [|[|] fs] eqn:Fw; try discriminate.
    unfold checkLimitsBeforeRequest.
    erewrite tryCatch_thrown
      by (apply bind_thrown; unfold AgentTeamModel.getTeamsForAgent, query;
          apply statement_fails; exact Fw).
    reflexivity.
  - intros et eid. split; [apply Total|].
    intros F. destruct (faults w) as [|[|] fs] eqn:Fw; try discriminate.
    unfold checkEntityLimits.
    erewrite tryCatch_thrown
      by (apply bind_thrown; unfold findLimitsForValidation, query;
          apply statement_fails; exact Fw).
    reflexivity.
Qed.

Lemma checkLimitsBeforeRequest_never_throws_witness :
  checkLimitsBeforeRequest "agent-1" QuotaSamples.failing
  = (Ok None,
     mkWorld QuotaSamples.tables [] 5200000 []
             [(Error, ErrorCheckingLimitsBeforeRequest)]).
Proof.
  apply (proj1 (proj2 (checkLimitsBeforeRequest_never_throws
                         "agent-1" QuotaSamples.failing)) eq_refl).
Defined.

(* ------------------------------------------------------------------ *)
(** ** Reset and eligibility (C8) *)




(* ------------------------------------------------------------------ *)
(** ** Prompt versions (C9) *)

Module PromptFacts.

Import PromptModel.















End PromptFacts.




(* ------------------------------------------------------------------ *)
(** ** Trusted data (C1, C2) *)

Module TrustedFacts.

Import TrustedData.

(** Persisting a tool message does not change how tool calls resolve. *)
Lemma toolNameFromHistory_persist st i chat toolCallId :
  isTool (role (message i)) = true ->
  toolNameFromHistory (persist st i) chat toolCallId
  = toolNameFromHistory st chat toolCallId.
Proof.
  intros T. unfold toolNameFromHistory, persist. simpl.
  rewrite rev_app_distr. simpl.
  assert (A : isAssistant (role (message i)) = false)
    by (destruct (role (message i)); simpl in *; congruence).
  rewrite A, andb_false_r. reflexivity.
Qed.

Lemma resolveTool_persist st i chat toolCallId :
  isTool (role (message i)) = true ->
  resolveTool (persist st i) chat toolCallId = resolveTool st chat toolCallId.
Proof.
  intros T. unfold resolveTool.
  rewrite toolNameFromHistory_persist by exact T. reflexivity.
Qed.

Lemma find_existsb A (f : A -> bool) l :
  existsb f l = match find f l with Some _ => true | None => false end.
Proof.
  induction l as [|a l IH]; [reflexivity|]. simpl.
  destruct (f a); [reflexivity | exact IH].
Qed.

Lemma occursIn_refl s : occursIn s s = true.
Proof.
  assert (P : forall t, String.prefix t t = true)
    by (induction t as [|a t IH]; simpl;
        [reflexivity | destruct (Ascii.ascii_dec a a); [exact IH | congruence]]).
  destruct s; simpl; [reflexivity|].
  change (String.prefix (String a s) (String a s) || occursIn (String a s) s
          = true).
  now rewrite P.
Qed.

(** What one turn of the loop persists. *)
Lemma evaluateMessage_some matches st chat m i :
  evaluateMessage matches st chat m = Some i ->
  classifiedAs matches st chat m i
  /\ resolvable st chat m = true
  /\ andb (trusted i) (blocked i) = false.
Proof.
  unfold evaluateMessage, resolvable, classifiedAs.
  destruct (isTool (role m)); [|discriminate].
  destruct (tool_call_id m) as [toolCallId|]; [|discriminate].
  destruct (resolveTool st chat toolCallId) as [[agentId t]|] eqn:R;
    [|discriminate].
  unfold classify.
  destruct (find (fun p => isBlockAlways p && matches p (contentOf m))
                 (boundPolicies st agentId t)) as [pb|] eqn:Fb.
  - intros E. injection E as <-. simpl.
    split; [|split; reflexivity].
    split; [reflexivity|]. split; [reflexivity|].
    exists toolCallId, agentId, t. split; [reflexivity|]. split; [exact R|].
    cbv zeta. rewrite !find_existsb, Fb.
    split; [|split; discriminate].
    intros _. split; [reflexivity|]. split; [reflexivity|].
    exists pb. apply find_some in Fb. destruct Fb as (I & B).
    split; [exact I|]. split; [exact B | reflexivity].
  - destruct (find (fun p => isMarkAsTrusted p && matches p (contentOf m))
                   (boundPolicies st agentId t)) as [pt|] eqn:Ft.
    + intros E. injection E as <-. simpl.
      split; [|split; reflexivity].
      split; [reflexivity|]. split; [reflexivity|].
      exists toolCallId, agentId, t. split; [reflexivity|]. split; [exact R|].
      cbv zeta. rewrite !find_existsb, Fb, Ft.
      split; [discriminate|]. split; [|discriminate].
      intros _ _. split; [reflexivity|]. split; [reflexivity|].
      exists pt. apply find_some in Ft. destruct Ft as (I & B).
      split; [exact I|]. split; [exact B | reflexivity].
    + intros E. injection E as <-. simpl.
      split; [|split; reflexivity].
      split; [reflexivity|]. split; [reflexivity|].
      exists toolCallId, agentId, t. split; [reflexivity|]. split; [exact R|].
      cbv zeta. rewrite !find_existsb, Fb, Ft.
      split; [discriminate|]. split; [discriminate|].
      intros _ _. split; [reflexivity|]. split; [reflexivity|].
      exists noMatchReason. split; [reflexivity | apply occursIn_refl].
Qed.

Lemma evaluateMessage_none matches st chat m :
  evaluateMessage matches st chat m = None -> resolvable st chat m = false.
Proof.
  unfold evaluateMessage, resolvable.
  destruct (isTool (role m)); [|reflexivity].
  destruct (tool_call_id m) as [toolCallId|]; [|reflexivity].
  destruct (resolveTool st chat toolCallId) as [[agentId t]|]; [|reflexivity].
  destruct (classify _ _ _) as [[a b] c]. discriminate.
Qed.

Lemma evaluateMessage_grown matches st0 st chat m :
  grownFrom st0 st ->
  evaluateMessage matches st chat m
  = option_map (fun i => i) (evaluateMessage matches st0 chat m).
Proof.
  intros (C & T & P & A & R). unfold evaluateMessage.
  destruct (isTool (role m)); [|reflexivity].
  destruct (tool_call_id m) as [toolCallId|]; [|reflexivity].
  rewrite R.
  destruct (resolveTool st0 chat toolCallId) as [[agentId t]|]; [|reflexivity].
  unfold boundPolicies. rewrite P, A.
  now destruct (classify _ _ _) as [[a b] c].
Qed.

Lemma evaluatePolicies_rows matches chat st0 messages : forall st,
  grownFrom st0 st ->
  exists rows,
    interactions (evaluatePolicies matches messages chat st)
    = interactions st ++ rows
    /\ grownFrom st0 (evaluatePolicies matches messages chat st)
    /\ Forall2 (classifiedAs matches st0 chat)
               (filter (resolvable st0 chat) messages) rows
    /\ Forall (fun i => andb (trusted i) (blocked i) = false) rows
    /\ Forall (fun i => isTool (role (message i)) = true) rows.
Proof.
  induction messages as [|m messages IH]; intros st G.
  - exists []. simpl. rewrite app_nil_r. repeat split; auto; apply G.
  - simpl. rewrite (evaluateMessage_grown matches st0 st chat m G).
    destruct (evaluateMessage matches st0 chat m) as [i|] eqn:E; simpl.
    + destruct (evaluateMessage_some matches st0 chat m i E) as (Cl & Rs & V).
      assert (Ti : isTool (role (message i)) = true).
      { destruct Cl as (_ & -> & _). unfold resolvable in Rs.
        now apply andb_prop in Rs. }
      assert (G' : grownFrom st0 (persist st i)).
      { destruct G as (C & T & P & A & R). repeat split; auto.
        intros c tc. rewrite resolveTool_persist by exact Ti. apply R. }
      destruct (IH (persist st i) G') as (rows & I & G2 & F & Vs & Ts).
      exists (i :: rows). rewrite Rs. split.
      * rewrite I. simpl. now rewrite <- app_assoc.
      * split; [exact G2|]. repeat split; constructor; assumption.
    + rewrite (evaluateMessage_none matches st0 chat m E).
      apply IH. exact G.
Qed.

Lemma grownFrom_refl st : grownFrom st st.
Proof. repeat split. Qed.

End TrustedFacts.

(** C1.  [evaluatePolicies] appends to the interactions of the store one
    row for each tool message whose tool call resolves, in message order,
    and nothing else.  The row of a message carries the chat and the
    message; it is [(false, true)] with the description of a matching
    [block_always] policy bound to the agent and the tool when there is
    one, else [(true, false)] with the description of a matching
    [mark_as_trusted] policy when there is one, else [(false, false)] with
    a reason containing "content does not match any trust policies".  No
    row is both trusted and blocked, and every row is a tool message. *)
Theorem evaluatePolicies_one_row_per_tool_message
        (matches : TrustedData.TrustedDataPolicy -> string -> bool)
        (messages : list TrustedData.Message) (chat : Id)
        (st : TrustedData.Store) :
  exists rows,
    TrustedData.interactions
      (TrustedData.evaluatePolicies matches messages chat st)
    = TrustedData.interactions st ++ rows
    /\ Forall2 (TrustedData.classifiedAs matches st chat)
               (filter (TrustedData.resolvable st chat) messages) rows
    /\ Forall (fun i => (TrustedData.trusted i, TrustedData.blocked i)
                        = (true, false)
                        \/ (TrustedData.trusted i, TrustedData.blocked i)
                           = (false, true)
                        \/ (TrustedData.trusted i, TrustedData.blocked i)
                           = (false, false)) rows
    /\ Forall (fun i => TrustedData.isTool
                          (TrustedData.role (TrustedData.message i)) = true)
              rows
    /\ List.length rows
       = List.length (filter (TrustedData.resolvable st chat) messages).
Proof.
  destruct (TrustedFacts.evaluatePolicies_rows matches chat st messages st
              (TrustedFacts.grownFrom_refl st)) as (rows & I & _ & F & V & T).
  exists rows. split; [exact I|]. split; [exact F|]. split; [|split].
  - revert V. apply Forall_impl. intros i.
    destruct (TrustedData.trusted i), (TrustedData.blocked i); simpl;
      intros H; auto; discriminate.
  - exact T.
  - symmetry. eapply Forall2_length. exact F.
Qed.

(** The four classification tests and the non-tool test of
    [trusted-data.test.ts], replayed. *)
Example evaluatePolicies_allow_test :
  TrustedData.interactions
    (TrustedData.evaluatePolicies TrustedSamples.sampleMatcher
       [TrustedSamples.trustedResult] "chat-1" TrustedSamples.store)
  = TrustedData.interactions TrustedSamples.store
    ++ [TrustedData.mkInteraction "chat-1" TrustedSamples.trustedResult
          true false (Some "Allow trusted emails")].
Proof. reflexivity. Qed.

Example evaluatePolicies_block_test :
  TrustedData.interactions
    (TrustedData.evaluatePolicies TrustedSamples.sampleMatcher
       [TrustedSamples.hackerResult] "chat-1" TrustedSamples.store)
  = TrustedData.interactions TrustedSamples.store
    ++ [TrustedData.mkInteraction "chat-1" TrustedSamples.hackerResult
          false true (Some "Block hacker emails")].
Proof. reflexivity. Qed.

Example evaluatePolicies_no_match_test :
  TrustedData.interactions
    (TrustedData.evaluatePolicies TrustedSamples.sampleMatcher
       [TrustedSamples.untrustedResult] "chat-1" TrustedSamples.store)
  = TrustedData.interactions TrustedSamples.store
    ++ [TrustedData.mkInteraction "chat-1" TrustedSamples.untrustedResult
          false false (Some "content does not match any trust policies")].
Proof. reflexivity. Qed.

Example evaluatePolicies_sequence_test :
  map (fun i => (TrustedData.trusted i, TrustedData.blocked i))
      (TrustedData.interactions
         (TrustedData.evaluatePolicies TrustedSamples.sampleMatcher
            [TrustedSamples.trustedResult; TrustedSamples.hackerResult]
            "chat-1" TrustedSamples.store))
  = [(true, false); (true, false); (true, false);
     (true, false); (false, true)].
Proof. reflexivity. Qed.

Example evaluatePolicies_ignores_non_tool_test :
  TrustedData.interactions
    (TrustedData.evaluatePolicies TrustedSamples.sampleMatcher
       [TrustedSamples.say TrustedData.user "Hello";
        TrustedSamples.say TrustedData.assistant "Hi there!"]
       "chat-1" (TrustedData.mkStore [] [("chat-1", "agent-1")] [] [] []))
  = [].
Proof. reflexivity. Qed.

(** C2 as stated fails on the run of the test "filters multiple blocked
    tool messages": the tool message with [tool_call_id] "allowed" has no
    persisted interaction at all, so none with [blocked=false], and it is
    kept. *)
Lemma filterOutBlockedData_keeps_unrecorded_tool_message :
  TrustedData.filterOutBlockedData "chat-1" TrustedSamples.blockedConversation
                                   TrustedSamples.blockedStore
  = [TrustedSamples.say TrustedData.user "Get data";
     TrustedSamples.toolMessage "allowed" "allowed data"]
  /\ TrustedData.interactionsOf TrustedSamples.blockedStore "chat-1"
       (TrustedSamples.toolMessage "allowed" "allowed data") = [].
Proof. split; reflexivity. Qed.

(** C2, amended.  [filterOutBlockedData] returns the input messages that
    pass one test, in their original order: a message is dropped exactly
    when it is a tool message and some persisted tool interaction of the
    chat with the same [tool_call_id] has [blocked=true].  So every
    non-tool message is kept, and a tool message is kept exactly when
    none of its persisted interactions is blocked; one without any
    persisted interaction is kept. *)
Theorem filterOutBlockedData_drops_blocked_only
        (chat : Id) (messages : list TrustedData.Message)
        (st : TrustedData.Store) :
  let out := TrustedData.filterOutBlockedData chat messages st in
  let unblocked m :=
    forallb (fun i => negb (TrustedData.blocked i))
            (TrustedData.interactionsOf st chat m) in
  out = filter (fun m => negb (TrustedData.isTool (TrustedData.role m))
                         || unblocked m) messages
  /\ filter (fun m => negb (TrustedData.isTool (TrustedData.role m))) out
     = filter (fun m => negb (TrustedData.isTool (TrustedData.role m)))
              messages
  /\ (forall m, In m messages ->
        TrustedData.isTool (TrustedData.role m) = true ->
        (In m out <->
         forall i, In i (TrustedData.interactionsOf st chat m) ->
                   TrustedData.blocked i = false))
  /\ (forall m, In m out -> In m messages).
Proof.
  intros out unblocked.
  assert (B : forall m, TrustedData.blockedInChat st chat m
                        = negb (unblocked m)).
  { intros m. unfold TrustedData.blockedInChat, unblocked,
      TrustedData.interactionsOf.
    set (sel := fun i => String.eqb (TrustedData.chatId i) chat
                         && TrustedData.isTool
                              (TrustedData.role (TrustedData.message i))
                         && TrustedData.sameCall (TrustedData.tool_call_id m)
                                                 (TrustedData.message i)).
    change (existsb (fun i => sel i && TrustedData.blocked i)
                    (TrustedData.interactions st)
            = negb (forallb (fun i => negb (TrustedData.blocked i))
                            (filter sel (TrustedData.interactions st)))).
    induction (TrustedData.interactions st) as [|i others IH]; [reflexivity|].
    simpl. destruct (sel i); simpl; rewrite IH; [|reflexivity].
    now destruct (TrustedData.blocked i). }
  assert (E : out = filter (fun m => negb (TrustedData.isTool
                                             (TrustedData.role m))
                                     || unblocked m) messages).
  { subst out. unfold TrustedData.filterOutBlockedData.
    apply filter_ext. intros m. rewrite B.
    now destruct (TrustedData.isTool _), (unblocked m). }
  split; [exact E|]. split; [|split].
  - rewrite E. clear E. induction messages as [|m ms IH]; [reflexivity|].
    simpl. destruct (TrustedData.isTool (TrustedData.role m)) eqn:T; simpl.
    + destruct (unblocked m); simpl; [rewrite T; simpl|]; exact IH.
    + rewrite T. simpl. now rewrite IH.
  - intros m I T. rewrite E, filter_In, T. simpl.
    unfold unblocked. rewrite forallb_forall.
    split.
    + intros (_ & H) i Hi. apply negb_true_iff. now apply H.
    + intros H. split; [exact I|]. intros i Hi. apply negb_true_iff. now apply H.
  - intros m I. rewrite E in I. now apply filter_In in I.
Qed.

(** The other filter tests, replayed. *)
Example filterOutBlockedData_no_interactions_test :
  TrustedData.filterOutBlockedData "chat-1"
    [TrustedSamples.say TrustedData.user "Hello";
     TrustedSamples.say TrustedData.assistant "Hi!"]
    (TrustedData.mkStore [] [("chat-1", "agent-1")] [] [] [])
  = [TrustedSamples.say TrustedData.user "Hello";
     TrustedSamples.say TrustedData.assistant "Hi!"].
Proof. reflexivity. Qed.

(* ------------------------------------------------------------------ *)
(** ** The Anthropic handler (C3, C4) *)

Module ProxyFacts.

Import AnthropicProxy.

Section Adds.

Variable ok : Effect -> Prop.

Lemma adds_pure A (a : A) : adds ok (pure a).
Proof. intros tr. exists []. simpl. now rewrite app_nil_r. Qed.

Lemma adds_await A (a : Answer A) : adds ok (await a).
Proof. intros tr. exists []. simpl. now rewrite app_nil_r. Qed.

Lemma adds_emit e : ok e -> adds ok (emit e).
Proof. intros O tr. exists [e]. simpl. split; [reflexivity | now constructor]. Qed.

Lemma adds_andThen A B (m : H A) (k : A -> H B) :
  adds ok m -> (forall a, adds ok (k a)) -> adds ok (andThen m k).
Proof.
  intros Hm Hk tr. unfold andThen.
  destruct (Hm tr) as (more & E & F).
  destruct (m tr) as [[a|e] tr1]; simpl in E; subst tr1.
  - destruct (Hk a (tr ++ more)) as (more2 & E2 & F2).
    exists (more ++ more2). rewrite E2, app_assoc. split; [reflexivity|].
    apply Forall_app. now split.
  - exists more. now split.
Qed.

Lemma adds_catching A (m : H A) (h : Failure -> H A) :
  adds ok m -> (forall e, adds ok (h e)) -> adds ok (catching m h).
Proof.
  intros Hm Hh tr. unfold catching.
  destruct (Hm tr) as (more & E & F).
  destruct (m tr) as [[a|e] tr1]; simpl in E; subst tr1.
  - exists more. now split.
  - destruct (Hh e (tr ++ more)) as (more2 & E2 & F2).
    exists (more ++ more2). rewrite E2, app_assoc. split; [reflexivity|].
    apply Forall_app. now split.
Qed.

Lemma adds_emitAll es : Forall ok es -> adds ok (emitAll es).
Proof.
  induction 1 as [|e es Oe _ IH]; simpl.
  - apply adds_pure.
  - apply adds_andThen; [now apply adds_emit | intros _; exact IH].
Qed.

End Adds.

Ltac adds_step :=
  match goal with
  | |- adds _ (andThen _ _) => apply adds_andThen; [|intros]
  | |- adds _ (catching _ _) => apply adds_catching; [|intros]
  | |- adds _ (emit _) => apply adds_emit; simpl; auto
  | |- adds _ (await _) => apply adds_await
  | |- adds _ (pure _) => apply adds_pure
  | |- adds _ (emitAll _) => apply adds_emitAll
  | |- adds _ (let (_, _) := ?x in _) => destruct x; cbv beta iota
  | |- adds _ (match ?x with _ => _ end) => destruct x; cbv beta iota
  end.

Lemma Forall_map_Write (ok : Effect -> Prop) A (f : A -> Sse) l :
  (forall chunk, ok (Write chunk)) -> Forall ok (map (fun a => Write (f a)) l).
Proof. intros O. induction l; simpl; constructor; auto. Qed.

Section Handler.

Variable ok : Effect -> Prop.
Hypothesis ok_Write : forall chunk, ok (Write chunk).
Hypothesis ok_Header : forall n v, ok (Header n v).
Hypothesis ok_End : ok EndOfStream.
Hypothesis ok_Reply : forall s b, ok (Reply s b).
Hypothesis ok_PersistTools : forall a ns, ok (PersistTools a ns).
Hypothesis ok_UpstreamStream : forall ms, ok (UpstreamStream ms).
Hypothesis ok_UpstreamCreate : forall ms ts, ok (UpstreamCreate ms ts).
Hypothesis ok_Mcp : forall a cs, ok (ExecuteMcpToolCalls a cs).
Hypothesis ok_Create :
  forall a r, ok (CreateInteraction a "anthropic:messages" r).

Lemma adds_afterStream c agentId trusted events acc :
  adds ok (afterStream c agentId trusted events acc).
Proof.
  unfold afterStream. repeat adds_step.
  all: try apply (Forall_map_Write ok _ (fun x => x)); auto.
  all: try (rewrite <- (map_id (flush _ _));
            rewrite map_map; apply (Forall_map_Write ok); auto).
Qed.

Lemma adds_streamingBranch c body agentId filtered trusted :
  adds ok (streamingBranch c body agentId filtered trusted).
Proof.
  unfold streamingBranch. adds_step; [adds_step|].
  destruct (upstreamStream c filtered) as [events failure].
  destruct (streamLoop events (mkAccumulator "" [])) as [written acc].
  cbv beta iota. adds_step.
  - adds_step. apply (Forall_map_Write ok _ (fun x => x)); auto.
  - destruct failure; [apply adds_await | apply adds_afterStream].
Qed.

Lemma adds_unaryBranch c body agentId merged filtered trusted :
  adds ok (unaryBranch c body agentId merged filtered trusted).
Proof.
  unfold unaryBranch. repeat adds_step.
Qed.

Lemma adds_injectTools c requestTools agentId :
  adds ok (injectTools c requestTools agentId).
Proof. unfold injectTools. repeat adds_step. Qed.

Lemma adds_proxied c body agentId : adds ok (proxied c body agentId).
Proof.
  unfold proxied.
  adds_step; [destruct (tools body); repeat adds_step|].
  adds_step; [apply adds_injectTools|].
  adds_step; [destruct (stream body); repeat adds_step|].
  destruct (evaluateIfContextIsTrusted c (messages body) agentId)
    as [callbacks evaluation].
  adds_step; [destruct (stream body); repeat adds_step;
              apply (Forall_map_Write ok); auto|].
  adds_step; [adds_step|].
  match goal with p : (Json * bool)%type |- _ => destruct p as [updates trusted] end.
  destruct (stream body);
    [apply adds_streamingBranch | apply adds_unaryBranch].
Qed.

Lemma adds_handleMessages c body userAgent agentId :
  adds ok (handleMessages c body userAgent agentId).
Proof.
  unfold handleMessages.
  assert (R : forall i, adds ok
            (catching (proxied c body i)
               (fun e => emit (Reply (match failureStatus e with
                                      | Some status => status
                                      | None => 500
                                      end)
                                     (ErrorBody (failureMessage e) "api_error"))))).
  { intros i. adds_step; [apply adds_proxied | adds_step]. }
  destruct agentId as [given|]; [destruct (Js.truthy (Some given))|].
  - adds_step; [adds_step|].
    match goal with b : bool |- _ => destruct b end; [apply R | adds_step].
  - adds_step; [adds_step | apply R].
  - adds_step; [adds_step | apply R].
Qed.

End Handler.

End ProxyFacts.

Module ProxyRuns.

Import AnthropicProxy.

Lemma andThen_returned A B (m : H A) (k : A -> H B) tr a tr' :
  m tr = (Returned a, tr') -> andThen m k tr = k a tr'.
Proof. intros E. unfold andThen. now rewrite E. Qed.

Lemma emitAll_run es : forall tr, emitAll es tr = (Returned tt, tr ++ es).
Proof.
  induction es as [|e es IH]; intros tr; simpl.
  - unfold pure. now rewrite app_nil_r.
  - unfold andThen, emit. rewrite IH, <- app_assoc. reflexivity.
Qed.

Lemma grows_afterStream c agentId trusted events acc :
  adds anyEffect (afterStream c agentId trusted events acc).
Proof. apply ProxyFacts.adds_afterStream; intros; exact I. Qed.

Lemma grows_unaryBranch c body agentId merged filtered trusted :
  adds anyEffect (unaryBranch c body agentId merged filtered trusted).
Proof. apply ProxyFacts.adds_unaryBranch; intros; exact I. Qed.

Lemma grows_streamingBranch c body agentId filtered trusted :
  adds anyEffect (streamingBranch c body agentId filtered trusted).
Proof. apply ProxyFacts.adds_streamingBranch; intros; exact I. Qed.

(** Both branches start with the primary call. *)
Lemma streamingBranch_calls_first c body agentId filtered trusted tr :
  exists rest,
    snd (streamingBranch c body agentId filtered trusted tr)
    = tr ++ UpstreamStream filtered :: rest.
Proof.
  destruct (grows_streamingBranch c body agentId filtered trusted tr)
    as (more & E & _).
  rewrite E. revert E. unfold streamingBranch.
  erewrite andThen_returned by reflexivity.
  destruct (upstreamStream c filtered) as [events failure].
  destruct (streamLoop events (mkAccumulator "" [])) as [written acc].
  erewrite andThen_returned by apply emitAll_run.
  destruct failure as [e|].
  - simpl. rewrite <- app_assoc. intros E. apply app_inv_head in E.
    subst more. eexists. reflexivity.
  - destruct (grows_afterStream c agentId trusted events acc
                ((tr ++ [UpstreamStream filtered]) ++ map Write written))
      as (more2 & E2 & _).
    rewrite E2, <- !app_assoc. intros E. apply app_inv_head in E.
    subst more. eexists. reflexivity.
Qed.

Lemma unaryBranch_calls_first c body agentId merged filtered trusted tr :
  exists tools rest,
    snd (unaryBranch c body agentId merged filtered trusted tr)
    = tr ++ UpstreamCreate filtered tools :: rest.
Proof.
  unfold unaryBranch.
  erewrite andThen_returned by reflexivity.
  match goal with
  | |- context [andThen (await ?a) ?k] =>
      assert (G : adds anyEffect (andThen (await a) k))
  end.
  { apply ProxyFacts.adds_andThen; [apply ProxyFacts.adds_await|].
    intros response. repeat ProxyFacts.adds_step; exact I. }
  destruct (G (tr ++ [UpstreamCreate filtered
                        match merged with [] => None | _ :: _ => Some merged end]))
    as (more & E & _).
  rewrite E, <- app_assoc. eexists. eexists. reflexivity.
Qed.

End ProxyRuns.

Module ProxyReach.

Import AnthropicProxy.

(** When the steps before the primary call return, the [try] block
    performs preliminary effects only and then calls the provider. *)
Lemma proxied_reaches_upstream c body agentId :
  reachesPrimaryCall c body agentId ->
  exists before call rest,
    snd (proxied c body agentId []) = before ++ call :: rest
    /\ isUpstreamCall call = true
    /\ Forall isPreliminary before.
Proof.
  intros (Hp & (assigned & Ha) & (trust & Ht)).
  set (pt := match tools body with
             | Some ts => [PersistTools agentId
                             (map declaredName (filter isCustom ts))]
             | None => []
             end).
  set (hd := if stream body
             then [Header "Content-Type" "text/event-stream";
                   Header "Cache-Control" "no-cache";
                   Header "Connection" "keep-alive"]
             else []).
  destruct (evaluateIfContextIsTrusted c (messages body) agentId)
    as [callbacks evaluation] eqn:Ev.
  simpl in Ht. subst evaluation.
  set (dl := if stream body
             then map (fun call => Write (dualLlmWrite call)) callbacks
             else []).
  assert (Pre : Forall isPreliminary ((pt ++ hd) ++ dl)).
  { apply Forall_app. split; [apply Forall_app; split|].
    - subst pt. destruct (tools body); repeat constructor.
    - subst hd. destruct (stream body); repeat constructor.
    - subst dl. destruct (stream body); [|constructor].
      apply Forall_forall. intros e He. apply in_map_iff in He.
      destruct He as (cb & <- & _). now destruct cb. }
  destruct trust as [updates trusted].
  assert (Run : proxied c body agentId []
                = (if stream body
                   then streamingBranch c body agentId
                          (applyUpdates c (messages body) updates) trusted
                   else unaryBranch c body agentId
                          (fold_left (fun m t => mapSet t m)
                             (map (fun t => mkToolDeclaration (declaredName t)
                                              (Some "custom")
                                              (declaredDescription t)
                                              (input_schema t)) assigned)
                             (fold_left (fun m t => mapSet t m)
                                match tools body with
                                | Some ts => ts
                                | None => []
                                end []))
                          (applyUpdates c (messages body) updates) trusted)
                    ((pt ++ hd) ++ dl)).
  { unfold proxied.
    erewrite ProxyRuns.andThen_returned.
    2:{ instantiate (1 := pt). instantiate (1 := tt). subst pt.
        destruct (tools body) as [ts|]; [|reflexivity].
        unfold andThen, emit, await. simpl. now rewrite Hp. }
    erewrite ProxyRuns.andThen_returned.
    2:{ unfold injectTools. erewrite ProxyRuns.andThen_returned; [reflexivity|].
        unfold await. now rewrite Ha. }
    erewrite ProxyRuns.andThen_returned.
    2:{ instantiate (1 := pt ++ hd). instantiate (1 := tt). subst hd.
        destruct (stream body);
          [unfold andThen, emit; simpl; rewrite <- !app_assoc; reflexivity|].
        unfold pure. f_equal. symmetry. apply app_nil_r. }
    rewrite Ev.
    erewrite ProxyRuns.andThen_returned.
    2:{ instantiate (1 := (pt ++ hd) ++ dl). instantiate (1 := tt). subst dl.
        destruct (stream body); [apply ProxyRuns.emitAll_run|].
        unfold pure. f_equal. symmetry. apply app_nil_r. }
    erewrite ProxyRuns.andThen_returned by reflexivity.
    reflexivity. }
  rewrite Run. destruct (stream body).
  - destruct (ProxyRuns.streamingBranch_calls_first c body agentId
                (applyUpdates c (messages body) updates) trusted
                ((pt ++ hd) ++ dl)) as (rest & E).
    exists ((pt ++ hd) ++ dl), (UpstreamStream
                                  (applyUpdates c (messages body) updates)), rest.
    repeat split; assumption.
  - match goal with
    | |- context [unaryBranch c body agentId ?merged ?filtered trusted] =>
        destruct (ProxyRuns.unaryBranch_calls_first c body agentId merged
                    filtered trusted ((pt ++ hd) ++ dl)) as (ts & rest & E)
    end.
    exists ((pt ++ hd) ++ dl),
      (UpstreamCreate (applyUpdates c (messages body) updates) ts), rest.
    repeat split; assumption.
Qed.

End ProxyReach.

Module StreamFacts.

Import AnthropicProxy.









End StreamFacts.



(** C4 as stated fails on the handler: the agent-level limit of agent-1
    is exceeded (the pre-check refuses in that world), yet the handler,
    which never consults the limits, forwards the request of agent-1 to
    the provider and persists an interaction of type [anthropic:messages]. *)
Lemma handleMessages_forwards_over_quota :
  result (LimitValidationService.checkLimitsBeforeRequest
            "agent-1" QuotaSamples.calm)
  = Ok (Some (LimitValidationService.mkRefusal agent "agent-1" "limit-agent"
                1100 1000 (LimitValidationService.Tokens 1100)))
  /\ AnthropicProxy.effectsOf (ProxySamples.collaborators None)
       (ProxySamples.request false) None (Some "agent-1")
     = [AnthropicProxy.UpstreamCreate ["hello"] None;
        AnthropicProxy.CreateInteraction "agent-1" "anthropic:messages"
          (AnthropicProxy.mkMessagesResponse "msg-2"
             [AnthropicProxy.text "Done."] "{}");
        AnthropicProxy.Reply 200
          (AnthropicProxy.MessageBody
             (AnthropicProxy.mkMessagesResponse "msg-2"
                [AnthropicProxy.text "Done."] "{}"))].
Proof. split; vm_compute; reflexivity. Qed.

(** C4, amended.  The Anthropic messages handler makes no quota
    pre-check: its effects are a function of the request and of its
    collaborators, none of which is the limit service.  Every interaction
    it persists has type [anthropic:messages].  Whenever the agent
    resolves and the steps before the primary call return (persisting the
    declared tools, reading the assigned tools, the trusted-data
    evaluation), the request is forwarded to the provider, and nothing
    but tool persistence, streaming headers and dual-LLM text deltas
    comes before that call: no reply and no persisted interaction. *)
Theorem handleMessages_forwards_without_quota_check
        (c : AnthropicProxy.Collaborators)
        (body : AnthropicProxy.MessagesRequest)
        (userAgent : option string) (agentId : option Id) :
  Forall AnthropicProxy.persistsMessagesOnly
         (AnthropicProxy.effectsOf c body userAgent agentId)
  /\ (forall resolvedAgentId,
        AnthropicProxy.resolvedAgent c userAgent agentId = Some resolvedAgentId ->
        AnthropicProxy.reachesPrimaryCall c body resolvedAgentId ->
        exists before call rest,
          AnthropicProxy.effectsOf c body userAgent agentId
          = before ++ call :: rest
          /\ AnthropicProxy.isUpstreamCall call = true
          /\ Forall AnthropicProxy.isPreliminary before).
Proof.
  split.
  - destruct (ProxyFacts.adds_handleMessages
                AnthropicProxy.persistsMessagesOnly
                (fun _ => I) (fun _ _ => I) I (fun _ _ => I) (fun _ _ => I)
                (fun _ => I) (fun _ _ => I) (fun _ _ => I)
                (fun _ _ => eq_refl) c body userAgent agentId [])
      as (more & E & F).
    unfold AnthropicProxy.effectsOf. rewrite E. exact F.
  - intros i R P.
    destruct (ProxyReach.proxied_reaches_upstream c body i P)
      as (before & call & rest & E & U & B).
    assert (Run : exists rest',
              snd (AnthropicProxy.catching (AnthropicProxy.proxied c body i)
                     (fun e => AnthropicProxy.emit
                        (AnthropicProxy.Reply
                           (match AnthropicProxy.failureStatus e with
                            | Some status => status
                            | None => 500
                            end)
                           (AnthropicProxy.ErrorBody
                              (AnthropicProxy.failureMessage e) "api_error")))
                     [])
              = before ++ call :: rest').
    { unfold AnthropicProxy.catching.
      destruct (AnthropicProxy.proxied c body i []) as [[a|e] tr]; simpl in *.
      - exists rest. exact E.
      - exists (rest ++ [AnthropicProxy.Reply
                           (match AnthropicProxy.failureStatus e with
                            | Some status => status
                            | None => 500
                            end)
                           (AnthropicProxy.ErrorBody
                              (AnthropicProxy.failureMessage e) "api_error")]).
        rewrite E, <- app_assoc. reflexivity. }
    destruct Run as (rest' & Run).
    exists before, call, rest'. split; [|split; assumption].
    unfold AnthropicProxy.effectsOf, AnthropicProxy.handleMessages.
    unfold AnthropicProxy.resolvedAgent in R.
    destruct agentId as [given|].
    + destruct (Js.truthy (Some given)).
      * unfold AnthropicProxy.andThen at 1. unfold AnthropicProxy.await at 1.
        destruct (AnthropicProxy.findById c given) as [[|]|e];
          try discriminate.
        injection R as ->. exact Run.
      * unfold AnthropicProxy.andThen at 1. unfold AnthropicProxy.await at 1.
        destruct (AnthropicProxy.getAgentIdFromRequest c userAgent) as [j|e];
          try discriminate.
        injection R as ->. exact Run.
    + unfold AnthropicProxy.andThen at 1. unfold AnthropicProxy.await at 1.
      destruct (AnthropicProxy.getAgentIdFromRequest c userAgent) as [j|e];
        try discriminate.
      injection R as ->. exact Run.
Qed.

Lemma handleMessages_forwards_without_quota_check_witness :
  exists before call rest,
    AnthropicProxy.effectsOf (ProxySamples.collaborators None)
      (ProxySamples.request true) None (Some "agent-1")
    = before ++ call :: rest
    /\ AnthropicProxy.isUpstreamCall call = true
    /\ Forall AnthropicProxy.isPreliminary before.
Proof.
  apply (proj2 (handleMessages_forwards_without_quota_check
                  (ProxySamples.collaborators None)
                  (ProxySamples.request true) None (Some "agent-1"))
               "agent-1" eq_refl).
  split; [exact I|]. split; eexists; reflexivity.
Defined.
